(** * Node-Streaming-VNC-Server: the native RFB server, embedded in Rocq

    A shallow embedding of [native/vnc_server.cc]: the socket traffic of a
    client session (WebSocket upgrade, RFB handshake, message loop,
    FramebufferUpdate emission), the capture side that fills the shared
    framebuffer, the input helper, the constructor and the
    [activeClients] bookkeeping.

    Conventions.
    - A byte is a [Z] in [0, 256); a byte buffer is a [list Z].
    - A C++ [int] is a [Z]; narrowing conversions ([uint8_t], [uint16_t],
      [uint64_t]) are written out with [mod].
    - A socket is the list of bytes the peer has made available, and the
      calls made on it are recorded in order as a list of events. *)

From Stdlib Require Import ZArith List String Ascii Lia.
From stdpp Require Import base list gmap strings.

Open Scope Z_scope.

(** ** Constants & helpers *)

Definition RFB_SCREEN_W : Z := 1920.
Definition RFB_SCREEN_H : Z := 1080.
Definition BYTES_PER_PIXEL : Z := 4.

Module Rect.
Record t := mk { x : Z; y : Z; w : Z; h : Z }.
End Rect.

Definition u8 (z : Z) : Z := z mod 256.
Definition u16 (z : Z) : Z := z mod 65536.
Definition u32 (z : Z) : Z := z mod 4294967296.
Definition u64 (z : Z) : Z := z mod 18446744073709551616.

(** [(v >> k) & 0xFF] *)
Definition byte_at (v k : Z) : Z := Z.land (Z.shiftr v k) 255.

(** A [char] read back as an [int]: MSVC's [char] is signed. *)
Definition schar (b : Z) : Z := if decide (b < 128) then b else b - 256.

Definition bytes_of_string (s : string) : list Z :=
  map (fun c => Z.of_N (N_of_ascii c)) (list_ascii_of_string s).

(** ** Socket traffic

    [INPUT] is what [::SendInput] receives from [VncServer::SendInput]. *)

Inductive INPUT :=
  | MouseInput (dx dy dwFlags : Z)
  | KeyboardInput (wVk : Z).

Inductive Event :=
  | Tx (bs : list Z)              (* send(s, bs, |bs|, 0) *)
  | Rx (n : nat) (bs : list Z)    (* recv(s, buf, n, 0) that delivered bs *)
  | Inject (i : INPUT).           (* ::SendInput(1, &i, sizeof(INPUT)) *)

(** A computation reads from the bytes the peer has pending, and yields a
    result, the bytes still pending and the calls it made. *)
Definition IO (A : Type) : Type := list Z -> A * list Z * list Event.

Definition retIO {A} (a : A) : IO A := fun inb => (a, inb, []).

Definition bindIO {A B} (c : IO A) (k : A -> IO B) : IO B :=
  fun inb =>
    let '(a, inb1, ev1) := c inb in
    let '(b, inb2, ev2) := k a inb1 in
    (b, inb2, ev1 ++ ev2).

Notation "'let*' x ':=' c 'in' k" := (bindIO c (fun x => k))
  (at level 10, x name, c at level 100, k at level 200).
Notation "c1 >>> c2" := (bindIO c1 (fun _ => c2))
  (at level 60, right associativity).

Definition send (bs : list Z) : IO unit :=
  fun inb => (tt, inb, [Tx bs]).

(** [recv] hands over at most [n] of the pending bytes; with nothing
    pending it delivers nothing, which is how a closed or failed socket
    ([n <= 0]) appears here. *)
Definition recv (n : nat) : IO (list Z) :=
  fun inb => (take n inb, drop n inb, [Rx n (take n inb)]).

Fixpoint forIO {A} (l : list A) (body : A -> IO unit) : IO unit :=
  match l with
  | [] => retIO tt
  | a :: l' => body a >>> forIO l' body
  end.

Definition result {A} (r : A * list Z * list Event) : A := r.1.1.
Definition unread {A} (r : A * list Z * list Event) : list Z := r.1.2.
Definition events {A} (r : A * list Z * list Event) : list Event := r.2.

(** The byte stream the peer receives, and the bytes the server consumed. *)
Definition sent (evs : list Event) : list Z :=
  flat_map (fun e => match e with Tx bs => bs | _ => [] end) evs.

Definition consumed (evs : list Event) : list Z :=
  flat_map (fun e => match e with Rx _ bs => bs | _ => [] end) evs.

Definition injected (evs : list Event) : list INPUT :=
  flat_map (fun e => match e with Inject i => [i] | _ => [] end) evs.

(** ** VncServer::SendFrameUpdate *)

Definition rect_header (r : Rect.t) : list Z :=
  [ byte_at (Rect.x r) 8; byte_at (Rect.x r) 0;
    byte_at (Rect.y r) 8; byte_at (Rect.y r) 0;
    byte_at (Rect.w r) 8; byte_at (Rect.w r) 0;
    byte_at (Rect.h r) 8; byte_at (Rect.h r) 0;
    0; 0; 0; 0 ].

(** One [send] of the loop over the lines of a rectangle:
    [send(s, &fb[srcIdx], r.w * 4, 0)].  A line that leaves the buffer
    is undefined behaviour in C++; here it comes out short. *)
Definition rect_row (fb : list Z) (fbW : Z) (r : Rect.t) (y : nat) : list Z :=
  let srcIdx := ((Rect.y r + Z.of_nat y) * fbW + Rect.x r) * 4 in
  take (Z.to_nat (Rect.w r * 4)) (drop (Z.to_nat srcIdx) fb).

Definition send_rect (fb : list Z) (fbW : Z) (r : Rect.t) : IO unit :=
  send (rect_header r) >>>
  forIO (seq 0 (Z.to_nat (Rect.h r))) (fun y => send (rect_row fb fbW r y)).

Definition SendFrameUpdate (rects : list Rect.t) (fb : list Z)
    (fbW fbH : Z) : IO unit :=
  match rects with
  | [] => retIO tt
  | _ =>
      let count := u16 (Z.of_nat (length rects)) in
      send [0; 0; byte_at count 8; byte_at count 0] >>>
      forIO rects (send_rect fb fbW)
  end.

(** ** Server state

    The fields of [class VncServer] that the modelled code reads or
    writes.  [frameCounter] is a [uint64_t], [activeClients] an
    [std::atomic<int>]. *)

Record VncServer := mkServer {
  running : bool;
  captureRunning : bool;
  port : Z;
  password : string;
  activeClients : Z;
  width : Z;
  height : Z;
  serverFramebuffer : list Z;
  currentDirtyRects : list Rect.t;
  frameCounter : Z
}.

Definition set_running (v : bool) (s : VncServer) : VncServer :=
  mkServer v (captureRunning s) (port s) (password s) (activeClients s)
    (width s) (height s) (serverFramebuffer s) (currentDirtyRects s) (frameCounter s).

Definition set_captureRunning (v : bool) (s : VncServer) : VncServer :=
  mkServer (running s) v (port s) (password s) (activeClients s)
    (width s) (height s) (serverFramebuffer s) (currentDirtyRects s) (frameCounter s).

Definition set_activeClients (v : Z) (s : VncServer) : VncServer :=
  mkServer (running s) (captureRunning s) (port s) (password s) v
    (width s) (height s) (serverFramebuffer s) (currentDirtyRects s) (frameCounter s).

Definition set_serverFramebuffer (v : list Z) (s : VncServer) : VncServer :=
  mkServer (running s) (captureRunning s) (port s) (password s) (activeClients s)
    (width s) (height s) v (currentDirtyRects s) (frameCounter s).

(** Two's-complement [int]. *)
Definition s32 (z : Z) : Z := (z + 2147483648) mod 4294967296 - 2147483648.

(** ** VncServer::VncServer

    The options object is a map from property names to JS values.
    The addon is built with [NAPI_DISABLE_CPP_EXCEPTIONS]: a failed
    conversion leaves a JS exception pending, so [new] fails; that is the
    [None] result. *)

Inductive JsValue :=
  | JsUndefined
  | JsBoolean (b : bool)
  | JsNumber (n : Z)
  | JsString (s : string).

Inductive JsArg :=
  | ArgObject (o : gmap string JsValue)
  | ArgPrimitive (v : JsValue).

Definition Int32Value (v : JsValue) : option Z :=
  match v with JsNumber n => Some (s32 n) | _ => None end.

Definition Utf8Value (v : JsValue) : option string :=
  match v with JsString s => Some s | _ => None end.

Definition VncServer_new (info : list JsArg) : option VncServer :=
  match info with
  | ArgObject options :: _ =>
      p ← match options !! "port"%string with
          | Some v => Int32Value v
          | None => Some 5900
          end;
      pw ← match options !! "password"%string with
           | Some v => Utf8Value v
           | None => Some EmptyString
           end;
      Some {| running := false;
              captureRunning := false;
              port := p;
              password := pw;
              activeClients := 0;
              width := 1920;
              height := 1080;
              serverFramebuffer := resize (Z.to_nat (1920 * 1080 * 4)) 0 [];
              currentDirtyRects := [];
              frameCounter := 0 |}
  | _ => None   (* TypeError: Options expected *)
  end.

(** [Start] and [Stop], as far as the flags go. *)
Definition Start (s : VncServer) : VncServer :=
  if running s then s else set_running true s.

Definition Stop (s : VncServer) : VncServer :=
  set_captureRunning false (set_running false s).

Definition GetActiveClientsCount (s : VncServer) : Z := activeClients s.

(** ** Capture: InitializeDXGI, AcquireFrame, CaptureLoop *)

Module RECT.
Record t := mk { left : Z; top : Z; right : Z; bottom : Z }.
End RECT.

(** What the desktop duplication hands to one [AcquireFrame] call. *)
Record OsFrame := mkFrame {
  frame_acquired : bool;          (* the duplication exists and AcquireNextFrame succeeded *)
  frame_dirty : list RECT.t;      (* rects of GetFrameDirtyRects; [] without metadata or on failure *)
  frame_pixels : option (list Z)  (* the mapped staging texture (BGRA); None when Map failed *)
}.

Definition InitializeDXGI (modeW modeH : Z) (s : VncServer) : VncServer :=
  mkServer (running s) (captureRunning s) (port s) (password s) (activeClients s)
    modeW modeH (resize (Z.to_nat (modeW * modeH * 4)) 0 (serverFramebuffer s))
    (currentDirtyRects s) (frameCounter s).

(** The body of the conversion loop, for pixel [i]. *)
Definition convert_pixel (src : list Z) (dst : list Z) (i : nat) : list Z :=
  let dst := <[(i * 4 + 0)%nat := src !!! (i * 4 + 2)%nat]> dst in   (* R *)
  let dst := <[(i * 4 + 1)%nat := src !!! (i * 4 + 1)%nat]> dst in   (* G *)
  let dst := <[(i * 4 + 2)%nat := src !!! (i * 4 + 0)%nat]> dst in   (* B *)
  <[(i * 4 + 3)%nat := 255]> dst.                                    (* A *)

(** [for (int i = 0; i < w * h; i++)] *)
Definition convert_BGRA_to_RGBA (src : list Z) (n : nat) (dst : list Z) : list Z :=
  foldl (convert_pixel src) dst (seq 0 n).

Definition rect_of_RECT (r : RECT.t) : Rect.t :=
  Rect.mk (RECT.left r) (RECT.top r)
          (RECT.right r - RECT.left r) (RECT.bottom r - RECT.top r).

Definition full_surface (s : VncServer) : Rect.t :=
  Rect.mk 0 0 (width s) (height s).

(** [dirtyRects] is the caller's vector, passed by reference. *)
Definition AcquireFrame (s : VncServer) (dirtyRects : list Rect.t) (f : OsFrame)
    : bool * VncServer * list Rect.t :=
  if negb (frame_acquired f) then (false, s, dirtyRects)
  else
    let dirtyRects := dirtyRects ++ map rect_of_RECT (frame_dirty f) in
    let dirtyRects :=
      match dirtyRects with
      | [] => [full_surface s]
      | _ => dirtyRects
      end in
    let s :=
      match frame_pixels f with
      | Some src =>
          set_serverFramebuffer
            (convert_BGRA_to_RGBA src (Z.to_nat (width s * height s))
               (serverFramebuffer s)) s
      | None => s
      end in
    (true, s, dirtyRects).

(** One turn of the [while] loop of [CaptureLoop]. *)
Definition CaptureLoop_iteration (f : OsFrame) (s : VncServer) : VncServer :=
  if decide (activeClients s = 0) then s
  else
    let '(ok, s, dirtyRects) := AcquireFrame s [] f in
    if ok then
      let rects :=
        match dirtyRects with
        | [] => dirtyRects ++ [full_surface s]
        | _ => dirtyRects
        end in
      mkServer (running s) (captureRunning s) (port s) (password s)
        (activeClients s) (width s) (height s) (serverFramebuffer s)
        rects (u64 (frameCounter s + 1))
    else s.

(** ** VncServer::SendInput

    The flag values are those of [winuser.h].  [÷] is the truncating
    division of C++ [int]s.  Dividing by a zero width or height is a
    fault: the call ends there, [None], before anything is injected.
    The product is an [int] again, taken with the 32-bit wrap-around of
    the compiled code; [wVk] is a 16-bit [WORD]. *)

Definition MOUSEEVENTF_MOVE : Z := 0x0001.
Definition MOUSEEVENTF_LEFTDOWN : Z := 0x0002.
Definition MOUSEEVENTF_LEFTUP : Z := 0x0004.
Definition MOUSEEVENTF_ABSOLUTE : Z := 0x8000.

Definition SendInput (s : VncServer) (type x y button key : Z)
    : IO (option unit) :=
  if decide (type = 0) then
    if decide (width s = 0) then retIO None          (* 65535 / 0 *)
    else
      let dx := s32 (x * (65535 ÷ width s)) in
      if decide (height s = 0) then retIO None       (* 65535 / 0 *)
      else
        let dy := s32 (y * (65535 ÷ height s)) in
        let dwFlags := Z.lor MOUSEEVENTF_ABSOLUTE MOUSEEVENTF_MOVE in
        let dwFlags :=
          if decide (button = 1) then Z.lor dwFlags MOUSEEVENTF_LEFTDOWN
          else if decide (button = 2) then Z.lor dwFlags MOUSEEVENTF_LEFTUP
          else dwFlags in
        fun inb => (Some tt, inb, [Inject (MouseInput dx dy dwFlags)])
  else fun inb => (Some tt, inb, [Inject (KeyboardInput (u16 key))]).

(** ** Client sessions *)

(** [std::string::find]: the first index at which [needle] occurs. *)
Fixpoint is_prefix (p l : list Z) : bool :=
  match p, l with
  | [], _ => true
  | _ :: _, [] => false
  | a :: p', b :: l' => if decide (a = b) then is_prefix p' l' else false
  end.

Fixpoint find_sub (needle hay : list Z) : option nat :=
  match hay with
  | [] => if is_prefix needle [] then Some 0%nat else None
  | _ :: t =>
      if is_prefix needle hay then Some 0%nat
      else option_map S (find_sub needle t)
  end.

(** [std::string req(buf)]: the bytes before the first NUL. *)
Fixpoint c_str (buf : list Z) : list Z :=
  match buf with
  | [] => []
  | b :: t => if decide (b = 0) then [] else b :: c_str t
  end.

Definition CRLF : list Z := [13; 10].

Definition keyHeader : list Z := bytes_of_string "Sec-WebSocket-Key: ".

Record Session := mkSession {
  lastFrameSeen : Z;        (* uint64_t *)
  updateRequested : bool
}.

Section Sessions.

(** SHA-1 and Base64 come from the Windows CryptoAPI. *)
Variable ComputeSHA1Base64 : list Z -> list Z.

Definition upgrade_response (acceptKey : list Z) : list Z :=
  bytes_of_string "HTTP/1.1 101 Switching Protocols" ++ CRLF ++
  bytes_of_string "Upgrade: websocket" ++ CRLF ++
  bytes_of_string "Connection: Upgrade" ++ CRLF ++
  bytes_of_string "Sec-WebSocket-Accept: " ++ acceptKey ++ CRLF ++ CRLF.

Definition HandshakeWebSocket : IO bool :=
  let* buf := recv 4095 in
  if decide (length buf = 0%nat) then retIO false
  else
    let req := c_str buf in
    match find_sub keyHeader req with
    | None => retIO false
    | Some pos =>
        let first := (pos + length keyHeader)%nat in
        let key :=
          match find_sub CRLF (drop pos req) with
          | Some e => take (pos + e - first) (drop first req)
          | None => drop first req     (* npos: up to the end *)
          end in
        let acceptKey := ComputeSHA1Base64 key in
        send (upgrade_response acceptKey) >>> retIO true
    end.

Definition ProtocolVersion : list Z := bytes_of_string "RFB 003.008" ++ [10].

Definition ServerInit (w h : Z) (name : list Z) : list Z :=
  let nameLen := u32 (Z.of_nat (length name)) in
  [ byte_at w 8; byte_at w 0;
    byte_at h 8; byte_at h 0;
    32;         (* BPP *)
    24;         (* Depth *)
    0;          (* BigEndian *)
    1;          (* TrueColor *)
    0; 255;     (* RedMax *)
    0; 255;     (* GreenMax *)
    0; 255;     (* BlueMax *)
    16;         (* RedShift *)
    8;          (* GreenShift *)
    0;          (* BlueShift *)
    0; 0; 0;
    byte_at nameLen 24; byte_at nameLen 16;
    byte_at nameLen 8; byte_at nameLen 0 ] ++ name.

Definition HandshakeRFB (w h : Z) (name : list Z) : IO bool :=
  (* 1. ProtocolVersion *)
  send ProtocolVersion >>>
  let* _ := recv 12 in            (* Client version *)
  (* 2. Security (1 = None) *)
  send [1; 1] >>>                 (* Count 1, Type 1 (None) *)
  let* _ := recv 1 in             (* Client Init (Shared flag) *)
  (* 3. Server Init *)
  send (ServerInit w h name) >>>
  retIO true.

(** The [switch] on the message type; [s] is the session before it. *)
Definition dispatch (msgType : Z) (s : Session) : IO Session :=
  if decide (msgType = 0) then          (* SetPixelFormat *)
    recv 19 >>> retIO s
  else if decide (msgType = 2) then     (* SetEncodings *)
    let* buf := recv 3 in
    let numEncodings :=
      u16 (Z.lor (Z.shiftl (schar (buf !!! 1%nat)) 8) (schar (buf !!! 2%nat))) in
    recv (Z.to_nat (numEncodings * 4)) >>> retIO s
  else if decide (msgType = 3) then     (* FramebufferUpdateRequest *)
    recv 9 >>> retIO (mkSession (lastFrameSeen s) true)
  else if decide (msgType = 4) then     (* KeyEvent *)
    recv 7 >>> retIO s
  else if decide (msgType = 5) then     (* PointerEvent *)
    recv 5 >>> retIO s
  else                                  (* Unknown message, drain buffer *)
    recv 1024 >>> retIO s.

(** The first half of a turn of the main loop: [None] is [break]. *)
Definition read_message (s : Session) : IO (option Session) :=
  fun inb =>
    if decide (length inb = 0%nat) then (Some s, inb, [])   (* bytesAvailable = 0 *)
    else
      (let* m := recv 1 in
       match m with
       | [] => retIO None                                   (* n <= 0 *)
       | msgType :: _ => let* s' := dispatch msgType s in retIO (Some s')
       end) inb.

(** The second half: the check under [framebufferMutex]. *)
Definition send_update (srv : VncServer) (s : Session) : IO Session :=
  if updateRequested s && bool_decide (lastFrameSeen s < frameCounter srv) then
    SendFrameUpdate (currentDirtyRects srv) (serverFramebuffer srv)
      (width srv) (height srv) >>>
    retIO (mkSession (frameCounter srv) false)
  else retIO s.

Definition ClientHandler_iteration (srv : VncServer) (s : Session)
    : IO (option Session) :=
  let* r := read_message s in
  match r with
  | None => retIO None
  | Some s1 => let* s2 := send_update srv s1 in retIO (Some s2)
  end.

(** *** The server and its session threads

    A session thread is at one of the points of [ClientHandler]. *)

Inductive Pc :=
  | PcEntry            (* started, before activeClients++ *)
  | PcWebSocket        (* 1. WebSocket Handshake *)
  | PcStartCapture     (* 2. Start Capture if needed *)
  | PcRFB              (* 3. RFB Handshake *)
  | PcLoop             (* 4. Main Loop *)
  | PcExit.            (* socket closed, activeClients-- done *)

Record Worker := mkWorker {
  pc : Pc;
  pending : list Z;       (* bytes the peer has sent and the thread has not read *)
  session : Session;
  traffic : list Event
}.

Inductive CapturePc :=
  | CapNone            (* no capture thread *)
  | CapInit            (* started, before InitializeDXGI *)
  | CapLoop            (* in the while loop *)
  | CapExit.

Record System := mkSystem {
  server : VncServer;
  capture : CapturePc;
  workers : list Worker
}.

Definition incr_clients (s : VncServer) : VncServer :=
  set_activeClients (s32 (activeClients s + 1)) s.

Definition decr_clients (s : VncServer) : VncServer :=
  set_activeClients (s32 (activeClients s - 1)) s.

Definition new_worker : Worker := mkWorker PcEntry [] (mkSession 0 true) [].

(** One atomic step of one thread, or of the peer of a session.  A turn
    of a loop is one step: the test of [running] at its head and the
    accept, the send or the commit that follows are not separated, so
    the relation says nothing about a [Stop] that falls between them. *)
Inductive step : System -> System -> Prop :=
  | step_start srv cap ws :
      step (mkSystem srv cap ws) (mkSystem (Start srv) cap ws)
  | step_stop srv cap ws :
      step (mkSystem srv cap ws) (mkSystem (Stop srv) cap ws)
  | step_accept srv cap ws :
      running srv = true ->
      step (mkSystem srv cap ws) (mkSystem srv cap (ws ++ [new_worker]))
  | step_arrive srv cap ws i wk bs :
      ws !! i = Some wk ->
      step (mkSystem srv cap ws)
           (mkSystem srv cap
              (<[i := mkWorker (pc wk) (pending wk ++ bs) (session wk) (traffic wk)]> ws))
  | step_enter srv cap ws i wk :
      ws !! i = Some wk -> pc wk = PcEntry ->
      step (mkSystem srv cap ws)
           (mkSystem (incr_clients srv) cap
              (<[i := mkWorker PcWebSocket (pending wk) (session wk) (traffic wk)]> ws))
  | step_websocket_ok srv cap ws i wk :
      ws !! i = Some wk -> pc wk = PcWebSocket ->
      result (HandshakeWebSocket (pending wk)) = true ->
      step (mkSystem srv cap ws)
           (mkSystem srv cap
              (<[i := mkWorker PcStartCapture
                       (unread (HandshakeWebSocket (pending wk))) (session wk)
                       (traffic wk ++ events (HandshakeWebSocket (pending wk)))]> ws))
  | step_websocket_fail srv cap ws i wk :
      ws !! i = Some wk -> pc wk = PcWebSocket ->
      result (HandshakeWebSocket (pending wk)) = false ->
      step (mkSystem srv cap ws)
           (mkSystem (decr_clients srv) cap
              (<[i := mkWorker PcExit
                       (unread (HandshakeWebSocket (pending wk))) (session wk)
                       (traffic wk ++ events (HandshakeWebSocket (pending wk)))]> ws))
  | step_start_capture srv cap ws i wk :
      ws !! i = Some wk -> pc wk = PcStartCapture ->
      step (mkSystem srv cap ws)
           (mkSystem (if captureRunning srv then srv else set_captureRunning true srv)
              (if captureRunning srv then cap else CapInit)
              (<[i := mkWorker PcRFB (pending wk) (session wk) (traffic wk)]> ws))
  | step_rfb_ok srv cap ws i wk :
      ws !! i = Some wk -> pc wk = PcRFB ->
      let hs := HandshakeRFB (width srv) (height srv) (bytes_of_string "NodeVNC")
                  (pending wk) in
      result hs = true ->
      step (mkSystem srv cap ws)
           (mkSystem srv cap
              (<[i := mkWorker PcLoop (unread hs) (mkSession 0 true)
                       (traffic wk ++ events hs)]> ws))
  | step_rfb_fail srv cap ws i wk :
      ws !! i = Some wk -> pc wk = PcRFB ->
      let hs := HandshakeRFB (width srv) (height srv) (bytes_of_string "NodeVNC")
                  (pending wk) in
      result hs = false ->
      step (mkSystem srv cap ws)
           (mkSystem (decr_clients srv) cap
              (<[i := mkWorker PcExit (unread hs) (session wk)
                       (traffic wk ++ events hs)]> ws))
  | step_loop srv cap ws i wk s' :
      ws !! i = Some wk -> pc wk = PcLoop -> running srv = true ->
      let it := ClientHandler_iteration srv (session wk) (pending wk) in
      result it = Some s' ->
      step (mkSystem srv cap ws)
           (mkSystem srv cap
              (<[i := mkWorker PcLoop (unread it) s' (traffic wk ++ events it)]> ws))
  | step_loop_break srv cap ws i wk :
      ws !! i = Some wk -> pc wk = PcLoop -> running srv = true ->
      let it := ClientHandler_iteration srv (session wk) (pending wk) in
      result it = None ->
      step (mkSystem srv cap ws)
           (mkSystem (decr_clients srv) cap
              (<[i := mkWorker PcExit (unread it) (session wk)
                       (traffic wk ++ events it)]> ws))
  | step_loop_stopped srv cap ws i wk :
      ws !! i = Some wk -> pc wk = PcLoop -> running srv = false ->
      step (mkSystem srv cap ws)
           (mkSystem (decr_clients srv) cap
              (<[i := mkWorker PcExit (pending wk) (session wk) (traffic wk)]> ws))
  | step_capture_init srv ws modeW modeH :
      step (mkSystem srv CapInit ws)
           (mkSystem (InitializeDXGI modeW modeH srv) CapLoop ws)
  | step_capture srv ws f :
      running srv = true -> captureRunning srv = true ->
      step (mkSystem srv CapLoop ws)
           (mkSystem (CaptureLoop_iteration f srv) CapLoop ws)
  | step_capture_exit srv ws :
      running srv && captureRunning srv = false ->
      step (mkSystem srv CapLoop ws) (mkSystem srv CapExit ws).

(** The states the server can be in: after [new VncServer(options)],
    any number of steps. *)
Inductive reachable : System -> Prop :=
  | reachable_new info srv :
      VncServer_new info = Some srv ->
      reachable (mkSystem srv CapNone [])
  | reachable_step sys sys' :
      reachable sys -> step sys sys' -> reachable sys'.

(** The sessions that [activeClients] counts: incremented, not yet
    decremented. *)
Definition counted (p : Pc) : bool :=
  match p with
  | PcWebSocket | PcStartCapture | PcRFB | PcLoop => true
  | PcEntry | PcExit => false
  end.

Definition streaming (p : Pc) : bool :=
  match p with PcLoop => true | _ => false end.

Definition count_workers (f : Pc -> bool) (ws : list Worker) : Z :=
  Z.of_nat (length (filter (fun wk => f (pc wk) = true) ws)).

End Sessions.

(** ** Derived views of the traffic *)

(** The pixel bytes of one rectangle: the row sends of [send_rect]. *)
Definition rect_pixels (fb : list Z) (fbW : Z) (r : Rect.t) : list Z :=
  flat_map (rect_row fb fbW r) (seq 0 (Z.to_nat (Rect.h r))).

(** The whole message [SendFrameUpdate] puts on the socket. *)
Definition FramebufferUpdate_bytes (rects : list Rect.t) (fb : list Z) (fbW : Z)
    : list Z :=
  match rects with
  | [] => []
  | _ =>
      let count := u16 (Z.of_nat (length rects)) in
      [0; 0; byte_at count 8; byte_at count 0] ++
      flat_map (fun r => rect_header r ++ rect_pixels fb fbW r) rects
  end.

(** ** The viewer's side

    What an RFB viewer does with the bytes it receives: the Raw encoding
    stores the pixel in column [dx] of line [dy] of a rectangle at offset
    [(dy * w + dx) * 4], and a pixel value is split by the shifts and
    maxima of the PixelFormat announced in ServerInit. *)

Definition raw_pixel_at (payload : list Z) (r : Rect.t) (dx dy : Z) : list Z :=
  take 4 (drop (Z.to_nat ((dy * Rect.w r + dx) * 4)) payload).

Record PixelFormat := mkPixelFormat {
  bitsPerPixel : Z; depth : Z; bigEndian : Z; trueColour : Z;
  redMax : Z; greenMax : Z; blueMax : Z;
  redShift : Z; greenShift : Z; blueShift : Z
}.

Definition be16 (hi lo : Z) : Z := hi * 256 + lo.

Definition pixel_format_of (init : list Z) : PixelFormat :=
  mkPixelFormat
    (init !!! 4%nat) (init !!! 5%nat) (init !!! 6%nat) (init !!! 7%nat)
    (be16 (init !!! 8%nat) (init !!! 9%nat))
    (be16 (init !!! 10%nat) (init !!! 11%nat))
    (be16 (init !!! 12%nat) (init !!! 13%nat))
    (init !!! 14%nat) (init !!! 15%nat) (init !!! 16%nat).

Definition pixel_value (pf : PixelFormat) (bs : list Z) : Z :=
  let b0 := bs !!! 0%nat in let b1 := bs !!! 1%nat in
  let b2 := bs !!! 2%nat in let b3 := bs !!! 3%nat in
  if decide (bigEndian pf = 0)
  then b0 + b1 * 256 + b2 * 65536 + b3 * 16777216
  else b3 + b2 * 256 + b1 * 65536 + b0 * 16777216.

(** The (red, green, blue) a viewer shows for four received bytes. *)
Definition decode_pixel (pf : PixelFormat) (bs : list Z) : Z * Z * Z :=
  let v := pixel_value pf bs in
  (Z.land (Z.shiftr v (redShift pf)) (redMax pf),
   Z.land (Z.shiftr v (greenShift pf)) (greenMax pf),
   Z.land (Z.shiftr v (blueShift pf)) (blueMax pf)).

Definition is_byte (b : Z) : Prop := 0 <= b < 256.

(** WebSocket framing (RFC 6455), as a browser expects it from a server:
    a final binary frame is [0x82], the unmasked payload length, the
    payload. *)
Definition ws_payload_len (n : Z) : list Z :=
  if decide (n < 126) then [n]
  else if decide (n < 65536) then [126; byte_at n 8; byte_at n 0]
  else [127; byte_at n 56; byte_at n 48; byte_at n 40; byte_at n 32;
        byte_at n 24; byte_at n 16; byte_at n 8; byte_at n 0].

Definition ws_binary_frame (payload : list Z) : list Z :=
  0x82 :: ws_payload_len (Z.of_nat (length payload)) ++ payload.

(** [wire] carries the bytes [rfb] in binary frames. *)
Definition ws_framed (rfb wire : list Z) : Prop :=
  exists chunks : list (list Z),
    concat chunks = rfb /\ wire = flat_map ws_binary_frame chunks.

(** A masked client frame with a short payload. *)
Definition ws_masked_frame (mask payload : list Z) : list Z :=
  0x82 :: Z.lor 0x80 (Z.of_nat (length payload)) :: mask ++
  imap (fun i b => Z.lxor b (mask !!! (i mod 4)%nat)) payload.

(** ** Sample peers and frames *)

Definition NodeVNC : list Z := bytes_of_string "NodeVNC".

(** A viewer that speaks RFB 3.8: version, security type None, ClientInit. *)
Definition client_3_8 : list Z := ProtocolVersion ++ [1] ++ [1].

Definition PointerEvent_sample : list Z := [5; 0x02; 0x01; 0x2C; 0x00; 0xC8].

Definition FramebufferUpdateRequest_sample : list Z :=
  [3; 0; 0; 0; 0; 0; 0; 4; 0; 4].

(** A 4 x 4 desktop with one client, before the first frame. *)
Definition small_server : VncServer :=
  mkServer true true 5900 EmptyString 1 4 4 (replicate 64 0) [] 0.

(** A frame without dirty-rect metadata, and one that reports the
    rectangle left 1, top 1, right 3, bottom 2. *)
Definition grey (n : nat) : list Z := replicate n 7.

Definition frame_plain : OsFrame := mkFrame true [] (Some (grey 64)).

Definition frame_delta : OsFrame :=
  mkFrame true [RECT.mk 1 1 3 2] (Some (grey 64)).

(** A 2 x 1 desktop and a frame whose second pixel is (R,G,B) = (1,2,3),
    stored by the duplication as B, G, R, A. *)
Definition tiny_server : VncServer :=
  mkServer true true 5900 EmptyString 1 2 1 (replicate 8 0) [] 0.

Definition tiny_frame : OsFrame :=
  mkFrame true [] (Some [30; 20; 10; 9; 3; 2; 1; 9]).

(** The mapping the interface text gives for a pointer coordinate. *)
Definition normalized_coordinate (v extent : Z) : Z := v * 65535 ÷ extent.

(** ** Notions used by the statements below *)

Definition rect_bytes (fb : list Z) (fbW : Z) (r : Rect.t) : list Z :=
  rect_header r ++ rect_pixels fb fbW r.

(** The four bytes the conversion loop stores for pixel [i]. *)
Definition stored_pixel (src : list Z) (i : nat) : list Z :=
  [ src !!! (i * 4 + 2)%nat; src !!! (i * 4 + 1)%nat; src !!! (i * 4 + 0)%nat; 255 ].

(** The rectangles a frame's metadata turns into. *)
Definition committed_rects (srv : VncServer) (f : OsFrame) : list Rect.t :=
  match frame_dirty f with
  | [] => [full_surface srv]
  | _ => map rect_of_RECT (frame_dirty f)
  end.

Definition is_request (msgType : Z) : bool := bool_decide (msgType = 3).

Definition first_is_request (inb : list Z) : bool :=
  match inb with b :: _ => is_request b | [] => false end.

(** The condition of the [if] under the mutex. *)
Definition wants_update (srv : VncServer) (s : Session) : bool :=
  updateRequested s && bool_decide (lastFrameSeen s < frameCounter srv).

Definition store_ok (srv : VncServer) : Prop :=
  0 <= frameCounter srv /\ (frameCounter srv <> 0 -> currentDirtyRects srv <> []).

Definition session_ok (s : Session) : Prop :=
  0 <= lastFrameSeen s /\ (lastFrameSeen s = 0 -> updateRequested s = true).

Definition system_ok (sys : System) : Prop :=
  store_ok (server sys) /\
  Forall (fun wk => session_ok (session wk)) (workers sys) /\
  activeClients (server sys) = s32 (count_workers counted (workers sys)).

Definition b2z (b : bool) : Z := if b then 1 else 0.

(** The sessions between [activeClients++] and the main loop. *)
Definition handshaking (p : Pc) : bool :=
  match p with
  | PcWebSocket | PcStartCapture | PcRFB => true
  | _ => false
  end.

(** ** Sample servers *)

(** A stand-in for the CryptoAPI digest in concrete runs. *)
Definition no_digest : list Z -> list Z := fun _ => [].

(** [new VncServer({})]. *)
Definition initial_server : VncServer :=
  mkServer false false 5900 EmptyString 0 1920 1080
    (resize (Z.to_nat (1920 * 1080 * 4)) 0 []) [] 0.

(** One client has connected and its thread has just started. *)
Definition sys_accepted : System :=
  mkSystem (Start initial_server) CapNone [new_worker].

(** The thread has run [activeClients++] and is about to read the HTTP
    request. *)
Definition sys_entered : System :=
  mkSystem (incr_clients (Start initial_server)) CapNone
    [mkWorker PcWebSocket [] (mkSession 0 true) []].

(** A 1920 x 1080 desktop. *)
Definition hd_server : VncServer :=
  mkServer true true 5900 EmptyString 1 1920 1080 [] [] 0.

(** A browser's upgrade request. *)
Definition http_upgrade_request : list Z :=
  bytes_of_string "GET /websockify HTTP/1.1" ++ CRLF ++
  bytes_of_string "Upgrade: websocket" ++ CRLF ++
  bytes_of_string "Connection: Upgrade" ++ CRLF ++
  bytes_of_string "Sec-WebSocket-Key: dGhlIHNhbXBsZSBub25jZQ==" ++ CRLF ++ CRLF.

(** A client of a 4 x 4 desktop that took its time over the RFB
    handshake: two frames were committed meanwhile, and the session now
    enters its main loop without having received anything but the
    handshakes. *)
Definition late_traffic : list Event :=
  events (HandshakeWebSocket no_digest http_upgrade_request) ++
  events (HandshakeRFB 4 4 NodeVNC (ProtocolVersion ++ [1])).

Definition sys_late : System :=
  mkSystem
    (CaptureLoop_iteration frame_delta (CaptureLoop_iteration frame_plain small_server))
    CapLoop
    [mkWorker PcLoop [] (mkSession 0 true) late_traffic].

(** ** The rest of the session code *)

(** [NetworkLoop] binds [htons(this->port)]: [htons] takes a 16-bit
    [u_short], so this is the port the server listens on. *)
Definition NetworkLoop_port (s : VncServer) : Z := u16 (port s).

(** One turn of [while (this->running)] as the session thread finds the
    world: the flag at the loop head, the bytes that arrived since the
    last turn, the server under the mutex. *)
Record Turn := mkTurn {
  turn_running : bool;
  turn_arrived : list Z;
  turn_server : VncServer
}.

(** The main loop of [ClientHandler] over the turns it gets to run. *)
Fixpoint ClientHandler_loop (turns : list Turn) (s : Session) (inb : list Z)
    : Session * list Z * list Event :=
  match turns with
  | [] => (s, inb, [])
  | t :: turns' =>
      if turn_running t then
        let '(r, inb1, ev1) :=
          ClientHandler_iteration (turn_server t) s (inb ++ turn_arrived t) in
        match r with
        | None => (s, inb1, ev1)                               (* break *)
        | Some s1 =>
            let '(s2, inb2, ev2) := ClientHandler_loop turns' s1 inb1 in
            (s2, inb2, ev1 ++ ev2)
        end
      else (s, inb, [])
  end.

(** The body length of the client messages the [switch] knows by size. *)
Definition body_length (msgType : Z) : option nat :=
  if decide (msgType = 0) then Some 19%nat
  else if decide (msgType = 3) then Some 9%nat
  else if decide (msgType = 4) then Some 7%nat
  else if decide (msgType = 5) then Some 5%nat
  else None.

(** A complete message of one of those types. *)
Definition fixed_message (m : list Z) : Prop :=
  match m with
  | [] => False
  | msgType :: body => body_length msgType = Some (length body)
  end.

(** The count [SetEncodings] computes from the two count bytes. *)
Definition numEncodings_of (hi lo : Z) : Z :=
  u16 (Z.lor (Z.shiftl (schar hi) 8) (schar lo)).

(** [needle] occurs in [hay] at index [i]. *)
Definition occurs_at (needle hay : list Z) (i : nat) : Prop :=
  take (length needle) (drop i hay) = needle.

(** A rectangle that lies on a [W] x [H] surface. *)
Definition rect_in_bounds (W H : Z) (r : Rect.t) : Prop :=
  0 <= Rect.x r /\ 0 <= Rect.y r /\ 0 <= Rect.w r /\ 0 <= Rect.h r /\
  Rect.x r + Rect.w r <= W /\ Rect.y r + Rect.h r <= H.

(** ** More of the viewer's side *)

Definition be32 (b0 b1 b2 b3 : Z) : Z :=
  ((b0 * 256 + b1) * 256 + b2) * 256 + b3.

(** The twelve bytes in front of a rectangle: position, size, encoding. *)
Definition decode_rect_header (bs : list Z) : Rect.t * Z :=
  (Rect.mk (be16 (bs !!! 0%nat) (bs !!! 1%nat)) (be16 (bs !!! 2%nat) (bs !!! 3%nat))
           (be16 (bs !!! 4%nat) (bs !!! 5%nat)) (be16 (bs !!! 6%nat) (bs !!! 7%nat)),
   be32 (bs !!! 8%nat) (bs !!! 9%nat) (bs !!! 10%nat) (bs !!! 11%nat)).

(** [n] Raw rectangles: each a header and [w * h * 4] bytes of pixels. *)
Fixpoint parse_rects (n : nat) (bs : list Z)
    : option (list (Rect.t * list Z) * list Z) :=
  match n with
  | O => Some ([], bs)
  | S n' =>
      if decide (length bs < 12)%nat then None
      else
        let '(r, encoding) := decode_rect_header bs in
        if decide (encoding = 0) then
          let size := Z.to_nat (Rect.w r * Rect.h r * 4) in
          let body := drop 12 bs in
          if decide (length body < size)%nat then None
          else
            match parse_rects n' (drop size body) with
            | Some (l, rest) => Some ((r, take size body) :: l, rest)
            | None => None
            end
        else None
  end.

(** A FramebufferUpdate message: type 0, padding, count, rectangles. *)
Definition parse_update (bs : list Z) : option (list (Rect.t * list Z) * list Z) :=
  match bs with
  | 0 :: _ :: hi :: lo :: rest => parse_rects (Z.to_nat (be16 hi lo)) rest
  | _ => None
  end.

(** ServerInit: width, height, PixelFormat, name. *)
Definition parse_ServerInit (bs : list Z) : option (Z * Z * PixelFormat * list Z) :=
  if decide (length bs < 24)%nat then None
  else
    let nameLen :=
      be32 (bs !!! 20%nat) (bs !!! 21%nat) (bs !!! 22%nat) (bs !!! 23%nat) in
    if decide (Z.of_nat (length bs) = 24 + nameLen) then
      Some (be16 (bs !!! 0%nat) (bs !!! 1%nat), be16 (bs !!! 2%nat) (bs !!! 3%nat),
            pixel_format_of bs, drop 24 bs)
    else None.

(** The store as the constructor leaves it. *)
Definition pristine (srv : VncServer) : Prop :=
  frameCounter srv = 0 /\ currentDirtyRects srv = [] /\
  width srv = 1920 /\ height srv = 1080 /\ captureRunning srv = false.

Definition store_shape (srv : VncServer) : Prop :=
  length (serverFramebuffer srv) = Z.to_nat (width srv * height srv * 4) /\
  0 <= frameCounter srv < 18446744073709551616.

(** The session has been sent something: the 101 response at least. *)
Definition answered (wk : Worker) : Prop := sent (traffic wk) <> [].

Definition system_shape (sys : System) : Prop :=
  store_shape (server sys) /\
  (capture sys = CapNone -> pristine (server sys)) /\
  (capture sys <> CapNone -> Exists answered (workers sys)) /\
  Forall (fun wk => pc wk = PcStartCapture -> answered wk) (workers sys).

(** What the constructor accepts in the two option fields. *)
Definition port_option_ok (o : gmap string JsValue) : Prop :=
  match o !! "port"%string with
  | None | Some (JsNumber _) => True
  | Some _ => False
  end.

Definition password_option_ok (o : gmap string JsValue) : Prop :=
  match o !! "password"%string with
  | None | Some (JsString _) => True
  | Some _ => False
  end.

(** [new VncServer({port: 70000, password: "secret"})]. *)
Definition sample_options : gmap string JsValue :=
  <["port"%string := JsNumber 70000]> (<["password"%string := JsString "secret"]> ∅).

Definition sample_server : VncServer :=
  mkServer false false 70000 "secret" 0 1920 1080
    (resize (Z.to_nat (1920 * 1080 * 4)) 0 []) [] 0.

(** The upgrade request in three parts: what precedes the key header,
    the key, what follows the key's line. *)
Definition upgrade_request_head : list Z :=
  bytes_of_string "GET /websockify HTTP/1.1" ++ CRLF ++
  bytes_of_string "Upgrade: websocket" ++ CRLF ++
  bytes_of_string "Connection: Upgrade" ++ CRLF.

Definition sample_key : list Z := bytes_of_string "dGhlIHNhbXBsZSBub25jZQ==".

(** A request that is no WebSocket upgrade. *)
Definition plain_http_request : list Z :=
  bytes_of_string "GET / HTTP/1.1" ++ CRLF ++ CRLF.

(** SetEncodings with two encodings, Raw and CopyRect. *)
Definition SetEncodings_sample : list Z := [2; 0; 0; 2; 0; 0; 0; 0; 0; 0; 0; 1].

(** Two turns of the loop on a 4 x 4 desktop with nothing arriving. *)
Definition quiet_turns : list Turn :=
  [mkTurn true [] small_server; mkTurn true [] small_server].

(** The 256 byte values. *)
Definition all_bytes : list Z := map Z.of_nat (seq 0 256).

(** * Properties *)

(** ** Running socket computations *)

Lemma result_mk {A} (a : A) i e : result (a, i, e) = a.
Proof. reflexivity. Qed.

Lemma unread_mk {A} (a : A) i e : unread (a, i, e) = i.
Proof. reflexivity. Qed.

Lemma events_mk {A} (a : A) i e : events (a, i, e) = e.
Proof. reflexivity. Qed.

Ltac io_proj := rewrite ?result_mk, ?unread_mk, ?events_mk.

Lemma retIO_run {A} (a : A) inb : retIO a inb = (a, inb, []).
Proof. reflexivity. Qed.

Lemma recv_run n inb : recv n inb = (take n inb, drop n inb, [Rx n (take n inb)]).
Proof. reflexivity. Qed.

(** A message body that is received and dropped. *)
Lemma drain_run {A} n (a : A) inb :
  (recv n >>> retIO a) inb = (a, drop n inb, [Rx n (take n inb)]).
Proof. reflexivity. Qed.

Lemma events_bind {A B} (c : IO A) (k : A -> IO B) inb :
  events (bindIO c k inb) =
  events (c inb) ++ events (k (result (c inb)) (unread (c inb))).
Proof.
  unfold bindIO, events, result, unread.
  destruct (c inb) as [[a inb1] ev1]; simpl.
  destruct (k a inb1) as [[b inb2] ev2]; reflexivity.
Qed.

Lemma unread_bind {A B} (c : IO A) (k : A -> IO B) inb :
  unread (bindIO c k inb) = unread (k (result (c inb)) (unread (c inb))).
Proof.
  unfold bindIO, events, result, unread.
  destruct (c inb) as [[a inb1] ev1]; simpl.
  destruct (k a inb1) as [[b inb2] ev2]; reflexivity.
Qed.

Lemma result_bind {A B} (c : IO A) (k : A -> IO B) inb :
  result (bindIO c k inb) = result (k (result (c inb)) (unread (c inb))).
Proof.
  unfold bindIO, events, result, unread.
  destruct (c inb) as [[a inb1] ev1]; simpl.
  destruct (k a inb1) as [[b inb2] ev2]; reflexivity.
Qed.

Lemma sent_app a b : sent (a ++ b) = sent a ++ sent b.
Proof. unfold sent. apply flat_map_app. Qed.

Lemma consumed_app a b : consumed (a ++ b) = consumed a ++ consumed b.
Proof. unfold consumed. apply flat_map_app. Qed.

Lemma injected_app a b : injected (a ++ b) = injected a ++ injected b.
Proof. unfold injected. apply flat_map_app. Qed.

Lemma sent_Tx bs l : sent (Tx bs :: l) = bs ++ sent l.
Proof. reflexivity. Qed.

Lemma forIO_send {A} (f : A -> list Z) (l : list A) inb :
  forIO l (fun a => send (f a)) inb = (tt, inb, map (fun a => Tx (f a)) l).
Proof.
  revert inb. induction l as [|a l IH]; intros inb; simpl; [reflexivity|].
  unfold bindIO, send at 1. rewrite IH. reflexivity.
Qed.

Lemma sent_map_Tx {A} (f : A -> list Z) (l : list A) :
  sent (map (fun a => Tx (f a)) l) = flat_map f l.
Proof.
  induction l; simpl; [reflexivity|]. unfold sent in *. simpl. by rewrite IHl.
Qed.

Lemma injected_map_Tx {A} (f : A -> list Z) (l : list A) :
  injected (map (fun a => Tx (f a)) l) = [].
Proof. induction l; simpl; auto. Qed.

Lemma consumed_map_Tx {A} (f : A -> list Z) (l : list A) :
  consumed (map (fun a => Tx (f a)) l) = [].
Proof. induction l; simpl; auto. Qed.

Lemma send_rect_run fb fbW r inb :
  send_rect fb fbW r inb =
  (tt, inb, Tx (rect_header r) ::
            map (fun y => Tx (rect_row fb fbW r y)) (seq 0 (Z.to_nat (Rect.h r)))).
Proof.
  unfold send_rect, bindIO.
  change (send (rect_header r) inb) with (tt, inb, [Tx (rect_header r)]).
  cbv beta iota. rewrite forIO_send. reflexivity.
Qed.

Lemma forIO_send_rect fb fbW rects inb :
  unread (forIO rects (send_rect fb fbW) inb) = inb /\
  sent (events (forIO rects (send_rect fb fbW) inb)) =
    flat_map (fun r => rect_header r ++ rect_pixels fb fbW r) rects /\
  consumed (events (forIO rects (send_rect fb fbW) inb)) = [] /\
  injected (events (forIO rects (send_rect fb fbW) inb)) = [].
Proof.
  induction rects as [|r rects IH]; [done|].
  cbn [forIO]. rewrite unread_bind, events_bind.
  rewrite send_rect_run. io_proj.
  destruct IH as (IH1 & IH2 & IH3 & IH4). split; [exact IH1|]. split; [|split].
  - rewrite sent_app, IH2. cbn [flat_map]. f_equal.
    rewrite sent_Tx. f_equal. apply sent_map_Tx.
  - unfold consumed in *. rewrite flat_map_app, IH3, app_nil_r.
    apply (consumed_map_Tx (rect_row fb fbW r)).
  - unfold injected in *. rewrite flat_map_app, IH4, app_nil_r.
    apply (injected_map_Tx (rect_row fb fbW r)).
Qed.

Lemma SendFrameUpdate_run rects fb fbW fbH inb :
  unread (SendFrameUpdate rects fb fbW fbH inb) = inb /\
  sent (events (SendFrameUpdate rects fb fbW fbH inb)) =
    FramebufferUpdate_bytes rects fb fbW /\
  consumed (events (SendFrameUpdate rects fb fbW fbH inb)) = [] /\
  injected (events (SendFrameUpdate rects fb fbW fbH inb)) = [].
Proof.
  destruct rects as [|r0 rects]; [done|].
  unfold SendFrameUpdate, FramebufferUpdate_bytes.
  rewrite unread_bind, events_bind.
  destruct (forIO_send_rect fb fbW (r0 :: rects) inb) as (H1 & H2 & H3 & H4).
  unfold send. io_proj.
  split; [exact H1|]. split; [|split].
  - rewrite sent_app, H2. reflexivity.
  - unfold consumed in *. rewrite flat_map_app, H3. reflexivity.
  - unfold injected in *. rewrite flat_map_app, H4. reflexivity.
Qed.

Lemma session_eta s : mkSession (lastFrameSeen s) (updateRequested s) = s.
Proof. by destruct s. Qed.

Lemma dispatch_run msgType s inb :
  result (dispatch msgType s inb) =
    mkSession (lastFrameSeen s) (updateRequested s || is_request msgType) /\
  sent (events (dispatch msgType s inb)) = [] /\
  injected (events (dispatch msgType s inb)) = [] /\
  consumed (events (dispatch msgType s inb)) ++ unread (dispatch msgType s inb) = inb.
Proof.
  unfold dispatch.
  repeat case_decide; subst; unfold is_request;
    try (rewrite drain_run; io_proj; cbn [sent consumed injected flat_map];
         rewrite ?app_nil_r, ?take_drop;
         rewrite ?bool_decide_eq_false_2 by lia;
         rewrite ?orb_false_r, ?session_eta; done).
  - (* SetEncodings *)
    unfold bindIO. rewrite !recv_run. cbv beta iota. unfold retIO. io_proj.
    rewrite bool_decide_eq_false_2 by lia. rewrite orb_false_r, session_eta.
    repeat split; try reflexivity.
    cbn [consumed flat_map app]. rewrite app_nil_r, <- app_assoc, !take_drop. reflexivity.
  - rewrite drain_run; io_proj. cbn [sent consumed injected flat_map].
    rewrite ?app_nil_r, ?take_drop. rewrite bool_decide_eq_true_2 by done.
    rewrite orb_true_r. done.
Qed.

Lemma read_message_run s inb :
  result (read_message s inb) =
    Some (mkSession (lastFrameSeen s) (updateRequested s || first_is_request inb)) /\
  sent (events (read_message s inb)) = [] /\
  injected (events (read_message s inb)) = [] /\
  consumed (events (read_message s inb)) ++ unread (read_message s inb) = inb.
Proof.
  unfold read_message. destruct inb as [|b rest].
  - cbn. rewrite orb_false_r, session_eta. done.
  - rewrite decide_False by done.
    rewrite result_bind, events_bind, unread_bind, recv_run. io_proj.
    cbn [take drop first_is_request]. rewrite drop_0, take_0.
    rewrite result_bind, events_bind, unread_bind.
    destruct (dispatch_run b s rest) as (D1 & D2 & D3 & D4).
    rewrite !retIO_run. io_proj. rewrite D1.
    rewrite app_nil_r, sent_app, injected_app, consumed_app, D2, D3.
    repeat split; try done.
    change (consumed [Rx 1 [b]]) with [b]. 
    cbn [app]. by rewrite D4.
Qed.

Lemma FramebufferUpdate_bytes_nil rects fb fbW :
  FramebufferUpdate_bytes rects fb fbW = [] <-> rects = [].
Proof. destruct rects; simpl; split; intros; [done|done|discriminate|discriminate]. Qed.

Lemma send_update_run srv s inb :
  send_update srv s inb =
  if wants_update srv s
  then (mkSession (frameCounter srv) false, inb,
        events (SendFrameUpdate (currentDirtyRects srv) (serverFramebuffer srv)
                  (width srv) (height srv) inb))
  else (s, inb, []).
Proof.
  unfold send_update, wants_update.
  destruct (updateRequested s && bool_decide (lastFrameSeen s < frameCounter srv)); [|done].
  destruct (SendFrameUpdate_run (currentDirtyRects srv) (serverFramebuffer srv)
              (width srv) (height srv) inb) as (U & _).
  unfold bindIO.
  destruct (SendFrameUpdate _ _ _ _ inb) as [[[] inb'] ev] eqn:E.
  unfold unread in U; cbn in U. subst inb'. rewrite retIO_run.
  unfold events; cbn. by rewrite app_nil_r.
Qed.

Lemma iteration_run srv s inb :
  let rd := read_message s inb in
  let s1 := mkSession (lastFrameSeen s) (updateRequested s || first_is_request inb) in
  let up := send_update srv s1 (unread rd) in
  ClientHandler_iteration srv s inb =
    (Some (result up), unread up, events rd ++ events up).
Proof.
  cbv zeta. unfold ClientHandler_iteration, bindIO.
  destruct (read_message_run s inb) as (R1 & _).
  destruct (read_message s inb) as [[r inb1] ev1]. io_proj.
  rewrite result_mk in R1. subst r.
  destruct (send_update srv _ inb1) as [[s2 inb2] ev2].
  rewrite retIO_run. io_proj. by rewrite app_nil_r.
Qed.

Lemma AcquireFrame_ok srv f :
  frame_acquired f = true ->
  exists srv',
    AcquireFrame srv [] f = (true, srv', committed_rects srv f) /\
    running srv' = running srv /\ captureRunning srv' = captureRunning srv /\
    port srv' = port srv /\ password srv' = password srv /\
    activeClients srv' = activeClients srv /\
    width srv' = width srv /\ height srv' = height srv /\
    currentDirtyRects srv' = currentDirtyRects srv /\
    frameCounter srv' = frameCounter srv /\
    serverFramebuffer srv' =
      match frame_pixels f with
      | Some src => convert_BGRA_to_RGBA src (Z.to_nat (width srv * height srv))
                      (serverFramebuffer srv)
      | None => serverFramebuffer srv
      end.
Proof.
  intros Hacq. unfold AcquireFrame, committed_rects. rewrite Hacq. cbn [negb app].
  destruct (frame_dirty f) as [|d ds]; destruct (frame_pixels f) as [src|];
    eexists; (split; [reflexivity|]); cbn; repeat split; reflexivity.
Qed.

Lemma committed_rects_nonempty srv f : committed_rects srv f <> [].
Proof. unfold committed_rects. by destruct (frame_dirty f). Qed.

(** A turn of the capture loop either leaves the shared state alone or
    commits a frame. *)
Lemma CaptureLoop_iteration_cases f srv :
  (CaptureLoop_iteration f srv = srv /\
   (activeClients srv = 0 \/ frame_acquired f = false)) \/
  (activeClients srv <> 0 /\ frame_acquired f = true /\
   currentDirtyRects (CaptureLoop_iteration f srv) = committed_rects srv f /\
   frameCounter (CaptureLoop_iteration f srv) = u64 (frameCounter srv + 1) /\
   activeClients (CaptureLoop_iteration f srv) = activeClients srv /\
   running (CaptureLoop_iteration f srv) = running srv /\
   captureRunning (CaptureLoop_iteration f srv) = captureRunning srv /\
   width (CaptureLoop_iteration f srv) = width srv /\
   height (CaptureLoop_iteration f srv) = height srv /\
   serverFramebuffer (CaptureLoop_iteration f srv) =
      match frame_pixels f with
      | Some src => convert_BGRA_to_RGBA src (Z.to_nat (width srv * height srv))
                      (serverFramebuffer srv)
      | None => serverFramebuffer srv
      end).
Proof.
  unfold CaptureLoop_iteration. case_decide as Hac; [left; auto|].
  destruct (frame_acquired f) eqn:Hacq.
  - right. destruct (AcquireFrame_ok srv f Hacq)
      as (srv' & -> & Hr & Hc & _ & _ & Ha & Hw & Hh & _ & Hf & Hfb).
    pose proof (committed_rects_nonempty srv f) as Hne.
    destruct (committed_rects srv f) as [|r rs] eqn:Hcr; [done|].
    cbn. rewrite Hf, Ha, Hr, Hc, Hw, Hh, Hfb. done.
  - left. unfold AcquireFrame. rewrite Hacq. cbn. auto.
Qed.

Lemma u64_nonneg z : 0 <= u64 z.
Proof. unfold u64. apply Z.mod_pos_bound. lia. Qed.

Lemma CaptureLoop_store_ok f srv :
  store_ok srv -> store_ok (CaptureLoop_iteration f srv).
Proof.
  intros Hok.
  destruct (CaptureLoop_iteration_cases f srv)
    as [[-> _]|(_ & _ & Hr & Hc & _)]; [done|].
  split.
  - rewrite Hc. apply u64_nonneg.
  - intros _. rewrite Hr. apply committed_rects_nonempty.
Qed.

Lemma CaptureLoop_activeClients f srv :
  activeClients (CaptureLoop_iteration f srv) = activeClients srv.
Proof.
  destruct (CaptureLoop_iteration_cases f srv)
    as [[-> _]|(_ & _ & _ & _ & Ha & _)]; done.
Qed.

Lemma s32_s32_add a b : s32 (s32 a + b) = s32 (a + b).
Proof.
  unfold s32. f_equal.
  replace ((a + 2147483648) mod 4294967296 - 2147483648 + b + 2147483648)
    with ((a + 2147483648) mod 4294967296 + b) by lia.
  rewrite Z.add_mod_idemp_l by lia. f_equal. lia.
Qed.

Lemma s32_small z : -2147483648 <= z < 2147483648 -> s32 z = z.
Proof. intros H. unfold s32. rewrite Z.mod_small by lia. lia. Qed.

Lemma count_workers_cons f wk ws :
  count_workers f (wk :: ws) = b2z (f (pc wk)) + count_workers f ws.
Proof.
  unfold count_workers. rewrite filter_cons.
  destruct (f (pc wk)) eqn:E.
  - rewrite decide_True by done. cbn [length b2z]. lia.
  - rewrite decide_False by done. cbn [b2z]. lia.
Qed.

Lemma count_workers_app f ws1 ws2 :
  count_workers f (ws1 ++ ws2) = count_workers f ws1 + count_workers f ws2.
Proof.
  unfold count_workers. rewrite filter_app, length_app. lia.
Qed.

Lemma count_workers_insert f ws i wk wk' :
  ws !! i = Some wk ->
  count_workers f (<[i := wk']> ws) =
  count_workers f ws - b2z (f (pc wk)) + b2z (f (pc wk')).
Proof.
  revert i. induction ws as [|w ws IH]; intros i Hi; [done|].
  destruct i as [|i].
  - injection Hi as ->.
    change (<[0%nat := wk']> (wk :: ws)) with (wk' :: ws).
    rewrite !count_workers_cons. lia.
  - change (<[S i := wk']> (w :: ws)) with (w :: <[i := wk']> ws).
    change (ws !! i = Some wk) in Hi.
    rewrite !count_workers_cons, (IH i Hi). lia.
Qed.

Lemma count_workers_nonneg f ws : 0 <= count_workers f ws.
Proof. unfold count_workers. lia. Qed.

Lemma VncServer_new_fields info srv :
  VncServer_new info = Some srv ->
  running srv = false /\ captureRunning srv = false /\ activeClients srv = 0 /\
  width srv = 1920 /\ height srv = 1080 /\
  serverFramebuffer srv = resize (Z.to_nat (1920 * 1080 * 4)) 0 [] /\
  currentDirtyRects srv = [] /\ frameCounter srv = 0.
Proof.
  unfold VncServer_new. destruct info as [|[o|v] info]; try discriminate.
  destruct (match o !! "port"%string with Some v => Int32Value v | None => Some 5900 end);
    [|discriminate].
  destruct (match o !! "password"%string with Some v => Utf8Value v | None => Some EmptyString end);
    [|discriminate].
  intros H. apply (inj Some) in H. rewrite <- H. repeat split; reflexivity.
Qed.

Lemma send_update_session_ok srv s inb :
  store_ok srv -> session_ok s -> session_ok (result (send_update srv s inb)).
Proof.
  intros [Hg _] [Hs1 Hs2]. rewrite send_update_run. unfold wants_update.
  destruct (updateRequested s) eqn:Hu; cbn [andb].
  - case_bool_decide as Hlt; io_proj.
    + split; cbn; [lia|]. intros H0. lia.
    + split; [done|]. by rewrite Hu.
  - io_proj. split; [done|]. by rewrite Hu.
Qed.

Lemma iteration_session_ok srv s inb s' :
  store_ok srv -> session_ok s ->
  result (ClientHandler_iteration srv s inb) = Some s' -> session_ok s'.
Proof.
  intros Hsrv [Hs1 Hs2]. rewrite iteration_run. io_proj. intros [= <-].
  apply send_update_session_ok; [done|]. split; cbn; [done|].
  intros H0. rewrite (Hs2 H0). done.
Qed.

Section Invariant.

Variable ComputeSHA1Base64 : list Z -> list Z.

Ltac worker_step :=
  match goal with
  | H : _ !! _ = Some _ |- _ => rewrite (count_workers_insert _ _ _ _ _ H)
  end.

Lemma step_system_ok sys sys' :
  step ComputeSHA1Base64 sys sys' -> system_ok sys -> system_ok sys'.
Proof.
  intros Hstep (Hstore & Hsess & Hcount).
  assert (Hnew : session_ok (mkSession 0 true)) by (split; cbn; [lia|done]).
  destruct Hstep; cbn [server workers] in *;
    unfold system_ok; cbn [server workers].
  - (* Start *)
    unfold Start. destruct (running srv); done.
  - (* Stop *) done.
  - (* accept *)
    split; [done|]. split.
    + apply Forall_app; split; [done|]. by constructor.
    + rewrite count_workers_app, Hcount. f_equal.
      rewrite (count_workers_cons counted new_worker []).
      change (count_workers counted []) with 0. cbn. lia.
  - (* bytes arrive *)
    split; [done|]. split.
    + apply Forall_insert; [done|]. cbn. by eapply (Forall_lookup_1 _ _ _ _ Hsess).
    + worker_step. cbn [pc]. rewrite Hcount. f_equal. lia.
  - (* enter *)
    split; [done|]. split.
    + apply Forall_insert; [done|]. cbn. by eapply (Forall_lookup_1 _ _ _ _ Hsess).
    + worker_step. cbn [pc]. rewrite H0. cbn [activeClients incr_clients set_activeClients counted b2z].
      rewrite Hcount, s32_s32_add. f_equal. lia.
  - (* websocket ok *)
    split; [done|]. split.
    + apply Forall_insert; [done|]. cbn. by eapply (Forall_lookup_1 _ _ _ _ Hsess).
    + worker_step. cbn [pc]. rewrite H0. cbn [counted b2z]. rewrite Hcount. f_equal. lia.
  - (* websocket fail *)
    split; [done|]. split.
    + apply Forall_insert; [done|]. cbn. by eapply (Forall_lookup_1 _ _ _ _ Hsess).
    + worker_step. cbn [pc]. rewrite H0. cbn [activeClients decr_clients set_activeClients counted b2z].
      rewrite Hcount. replace (s32 (count_workers counted ws) - 1)
        with (s32 (count_workers counted ws) + -1) by lia.
      rewrite s32_s32_add. f_equal. lia.
  - (* start capture *)
    split; [by destruct (captureRunning srv)|]. split.
    + apply Forall_insert; [done|]. cbn. by eapply (Forall_lookup_1 _ _ _ _ Hsess).
    + worker_step. cbn [pc]. rewrite H0. cbn [counted b2z].
      replace (activeClients (if captureRunning srv then srv else set_captureRunning true srv))
        with (activeClients srv) by (by destruct (captureRunning srv)).
      rewrite Hcount. f_equal. lia.
  - (* RFB ok *)
    split; [done|]. split.
    + apply Forall_insert; [done|]. done.
    + worker_step. cbn [pc]. rewrite H0. cbn [counted b2z]. rewrite Hcount. f_equal. lia.
  - (* RFB fail *)
    split; [done|]. split.
    + apply Forall_insert; [done|]. cbn. by eapply (Forall_lookup_1 _ _ _ _ Hsess).
    + worker_step. cbn [pc]. rewrite H0. cbn [activeClients decr_clients set_activeClients counted b2z].
      rewrite Hcount. replace (s32 (count_workers counted ws) - 1)
        with (s32 (count_workers counted ws) + -1) by lia.
      rewrite s32_s32_add. f_equal. lia.
  - (* loop *)
    split; [done|]. split.
    + apply Forall_insert; [done|]. cbn.
      eapply iteration_session_ok; [exact Hstore| |eassumption].
      by eapply (Forall_lookup_1 _ _ _ _ Hsess).
    + worker_step. cbn [pc]. rewrite H0. cbn [counted b2z]. rewrite Hcount. f_equal. lia.
  - (* loop break *)
    split; [done|]. split.
    + apply Forall_insert; [done|]. cbn. by eapply (Forall_lookup_1 _ _ _ _ Hsess).
    + worker_step. cbn [pc]. rewrite H0. cbn [activeClients decr_clients set_activeClients counted b2z].
      rewrite Hcount. replace (s32 (count_workers counted ws) - 1)
        with (s32 (count_workers counted ws) + -1) by lia.
      rewrite s32_s32_add. f_equal. lia.
  - (* loop, server stopped *)
    split; [done|]. split.
    + apply Forall_insert; [done|]. cbn. by eapply (Forall_lookup_1 _ _ _ _ Hsess).
    + worker_step. cbn [pc]. rewrite H0. cbn [activeClients decr_clients set_activeClients counted b2z].
      rewrite Hcount. replace (s32 (count_workers counted ws) - 1)
        with (s32 (count_workers counted ws) + -1) by lia.
      rewrite s32_s32_add. f_equal. lia.
  - (* InitializeDXGI *) done.
  - (* capture *)
    split; [by apply CaptureLoop_store_ok|]. split; [done|].
    by rewrite CaptureLoop_activeClients.
  - (* capture exit *) done.
Qed.

Lemma reachable_system_ok sys : reachable ComputeSHA1Base64 sys -> system_ok sys.
Proof.
  induction 1 as [info srv Hnew|sys sys' _ IH Hstep].
  - destruct (VncServer_new_fields _ _ Hnew) as (_ & _ & Ha & _ & _ & _ & Hr & Hf).
    split; [|split]; cbn.
    + split; [lia|]. rewrite Hf. done.
    + constructor.
    + rewrite Ha. reflexivity.
  - eapply step_system_ok; eassumption.
Qed.
End Invariant.

Lemma convert_pixel_length src dst i :
  length (convert_pixel src dst i) = length dst.
Proof. unfold convert_pixel. by rewrite !length_insert. Qed.

Lemma convert_length src n dst :
  length (convert_BGRA_to_RGBA src n dst) = length dst.
Proof.
  unfold convert_BGRA_to_RGBA. induction n as [|n IH]; [done|].
  rewrite seq_S, foldl_app. cbn [foldl]. by rewrite convert_pixel_length.
Qed.

Lemma convert_pixel_other src dst i j :
  (j < i * 4 \/ i * 4 + 4 <= j)%nat ->
  convert_pixel src dst i !! j = dst !! j.
Proof.
  intros Hj. unfold convert_pixel.
  rewrite !list_lookup_insert_ne by lia. done.
Qed.

Lemma convert_pixel_here src dst i k :
  (i * 4 + 4 <= length dst)%nat -> (k < 4)%nat ->
  convert_pixel src dst i !! (i * 4 + k)%nat = stored_pixel src i !! k.
Proof.
  intros Hlen Hk. unfold convert_pixel, stored_pixel.
  destruct k as [|[|[|[|k]]]]; [| | | |lia].
  - rewrite !list_lookup_insert_ne by lia.
    rewrite list_lookup_insert_eq by lia. done.
  - rewrite !list_lookup_insert_ne by lia.
    rewrite list_lookup_insert_eq by (rewrite ?length_insert; lia). done.
  - rewrite !list_lookup_insert_ne by lia.
    rewrite list_lookup_insert_eq by (rewrite ?length_insert; lia). done.
  - rewrite list_lookup_insert_eq by (rewrite ?length_insert; lia). done.
Qed.

Lemma convert_lookup src n dst i k :
  (n * 4 <= length dst)%nat -> (i < n)%nat -> (k < 4)%nat ->
  convert_BGRA_to_RGBA src n dst !! (i * 4 + k)%nat = stored_pixel src i !! k.
Proof.
  unfold convert_BGRA_to_RGBA. induction n as [|n IH]; intros Hlen Hi Hk; [lia|].
  rewrite seq_S, foldl_app. cbn [foldl Nat.add].
  destruct (decide (i = n)) as [->|Hne].
  - apply convert_pixel_here; [|done].
    fold (convert_BGRA_to_RGBA src n dst). rewrite convert_length. lia.
  - rewrite convert_pixel_other by lia. apply IH; lia.
Qed.

(** Lines of equal length laid end to end. *)
Lemma lookup_flat_map_rows (f : nat -> list Z) (L n i j : nat) :
  (forall y, (y < n)%nat -> length (f y) = L) ->
  (i < n)%nat -> (j < L)%nat ->
  flat_map f (seq 0 n) !! (i * L + j)%nat = f i !! j.
Proof.
  intros Hlen. induction n as [|n IH]; intros Hi Hj; [lia|].
  rewrite seq_S, flat_map_app. cbn [flat_map Nat.add]. rewrite app_nil_r.
  assert (Hl : length (flat_map f (seq 0 n)) = (n * L)%nat).
  { clear IH Hi. induction n as [|m IHm]; [done|].
    rewrite seq_S, flat_map_app, length_app. cbn [flat_map Nat.add].
    rewrite app_nil_r, IHm, Hlen by (intros; try apply Hlen; lia). lia. }
  destruct (decide (i = n)) as [->|Hne].
  - rewrite lookup_app_r by lia. rewrite Hl. f_equal. lia.
  - rewrite lookup_app_l by (rewrite Hl; nia).
    apply IH; [intros; apply Hlen|..]; lia.
Qed.

Lemma rect_row_length fb fbW fbH r y :
  0 <= Rect.x r -> 0 <= Rect.y r -> 0 <= Rect.w r ->
  Rect.x r + Rect.w r <= fbW -> Rect.y r + Rect.h r <= fbH ->
  length fb = Z.to_nat (fbW * fbH * 4) ->
  (y < Z.to_nat (Rect.h r))%nat ->
  length (rect_row fb fbW r y) = Z.to_nat (Rect.w r * 4).
Proof.
  intros Hx Hy Hw Hxw Hyh Hfb Hlt. unfold rect_row.
  rewrite length_take, length_drop, Hfb.
  assert ((Rect.y r + Z.of_nat y) * fbW + Rect.x r + Rect.w r <= fbW * fbH) by nia.
  assert (0 <= (Rect.y r + Z.of_nat y) * fbW) by nia.
  lia.
Qed.

Lemma rect_row_lookup fb fbW r y j :
  0 <= Rect.x r -> 0 <= Rect.y r -> 0 <= fbW ->
  (j < Z.to_nat (Rect.w r * 4))%nat ->
  rect_row fb fbW r y !! j =
  fb !! (Z.to_nat (((Rect.y r + Z.of_nat y) * fbW + Rect.x r) * 4) + j)%nat.
Proof.
  intros Hx Hy Hw Hj. unfold rect_row.
  rewrite lookup_take_lt by done. by rewrite lookup_drop.
Qed.

Lemma raw_pixel_at_rows fb fbW fbH r dx dy :
  0 <= Rect.x r -> 0 <= Rect.y r ->
  Rect.x r + Rect.w r <= fbW -> Rect.y r + Rect.h r <= fbH ->
  length fb = Z.to_nat (fbW * fbH * 4) ->
  0 <= dx < Rect.w r -> 0 <= dy < Rect.h r ->
  raw_pixel_at (rect_pixels fb fbW r) r dx dy =
  take 4 (drop (Z.to_nat (((Rect.y r + dy) * fbW + (Rect.x r + dx)) * 4)) fb).
Proof.
  intros Hx Hy Hxw Hyh Hfb Hdx Hdy. unfold raw_pixel_at, rect_pixels.
  assert (Hrow : forall y, (y < Z.to_nat (Rect.h r))%nat ->
            length (rect_row fb fbW r y) = Z.to_nat (Rect.w r * 4)).
  { intros y Hlt. eapply rect_row_length; eauto; lia. }
  apply list_eq. intros k.
  destruct (decide (k < 4)%nat) as [Hk|Hk];
    [|rewrite !lookup_take_ge by lia; done].
  rewrite !lookup_take_lt, !lookup_drop by done.
  replace (Z.to_nat ((dy * Rect.w r + dx) * 4) + k)%nat
    with (Z.to_nat dy * Z.to_nat (Rect.w r * 4) + (Z.to_nat dx * 4 + k))%nat by nia.
  rewrite (lookup_flat_map_rows _ (Z.to_nat (Rect.w r * 4))) by (done || lia).
  rewrite rect_row_lookup by lia.
  f_equal. rewrite Z2Nat.id by lia. nia.
Qed.

Lemma FramebufferUpdate_bytes_split pre r post fb fbW :
  FramebufferUpdate_bytes (pre ++ r :: post) fb fbW =
  [0; 0; byte_at (u16 (Z.of_nat (length (pre ++ r :: post)))) 8;
         byte_at (u16 (Z.of_nat (length (pre ++ r :: post)))) 0] ++
  flat_map (rect_bytes fb fbW) pre ++
  rect_header r ++ rect_pixels fb fbW r ++
  flat_map (rect_bytes fb fbW) post.
Proof.
  unfold FramebufferUpdate_bytes.
  destruct (pre ++ r :: post) as [|r0 l] eqn:E; [by destruct pre|].
  rewrite <- E. f_equal. rewrite flat_map_app. cbn [flat_map].
  unfold rect_bytes. by rewrite <- !app_assoc.
Qed.

Lemma stored_pixel_byte1 src i : stored_pixel src i !! 1%nat = Some (src !!! (i * 4 + 1)%nat).
Proof. reflexivity. Qed.

Lemma take4_lookup (fb : list Z) (n : nat) (px : list Z) :
  (n + 4 <= length fb)%nat ->
  (forall k, (k < 4)%nat -> fb !! (n + k)%nat = px !! k) -> length px = 4%nat ->
  take 4 (drop n fb) = px.
Proof.
  intros Hlen Hk Hpx. apply list_eq. intros k.
  destruct (decide (k < 4)%nat) as [Hlt|Hge].
  - rewrite lookup_take_lt, lookup_drop by done. by apply Hk.
  - rewrite lookup_take_ge by lia. symmetry. apply lookup_ge_None. lia.
Qed.

(** After a commit with pixel data, the four bytes the viewer reads for a
    pixel of an in-bounds rectangle are the four bytes the conversion
    loop stored for it. *)
Lemma committed_pixel_on_wire srv f src r dx dy :
  let W := width srv in
  let H := height srv in
  let fb := serverFramebuffer (CaptureLoop_iteration f srv) in
  let i := Z.to_nat ((Rect.y r + dy) * W + (Rect.x r + dx)) in
  activeClients srv <> 0 -> frame_acquired f = true -> frame_pixels f = Some src ->
  length (serverFramebuffer srv) = Z.to_nat (W * H * 4) ->
  0 <= Rect.x r -> 0 <= Rect.y r ->
  Rect.x r + Rect.w r <= W -> Rect.y r + Rect.h r <= H ->
  0 <= dx < Rect.w r -> 0 <= dy < Rect.h r ->
  raw_pixel_at (rect_pixels fb W r) r dx dy = stored_pixel src i.
Proof.
  intros W H fb i Hac Hacq Hpx Hlen Hx Hy Hxw Hyh Hdx Hdy.
  destruct (CaptureLoop_iteration_cases f srv)
    as [[_ [?|?]]|(_ & _ & _ & _ & _ & _ & _ & _ & _ & Hfb)]; [done|congruence|].
  rewrite Hpx in Hfb. fold W H in Hfb. subst fb.
  assert (HWH : (Z.to_nat (W * H) * 4)%nat = Z.to_nat (W * H * 4)) by nia.
  assert (Hi : (i < Z.to_nat (W * H))%nat) by (subst i; nia).
  rewrite (raw_pixel_at_rows _ W H) by (rewrite ?Hfb, ?convert_length; done).
  rewrite Hfb.
  replace (Z.to_nat (((Rect.y r + dy) * W + (Rect.x r + dx)) * 4))
    with (i * 4)%nat by (subst i; nia).
  apply take4_lookup; [rewrite convert_length; lia| |done].
  intros k Hk. apply convert_lookup; [lia|done|done].
Qed.

(** C1 (amended). For every pixel committed to the framebuffer store, the
    bytes emitted for it inside a Raw rectangle of a FramebufferUpdate are
    exactly the four bytes the store holds for it, in store order; the
    second is the green component G of the captured pixel and the fourth
    is 255, so a viewer that decodes with the PixelFormat of ServerInit
    (little-endian, shifts 16/8/0) reconstructs G. *)
Theorem C1_raw_pixel_is_store_pixel srv f src pre r post dx dy inb :
  let W := width srv in
  let H := height srv in
  let srv' := CaptureLoop_iteration f srv in
  let fb := serverFramebuffer srv' in
  let i := Z.to_nat ((Rect.y r + dy) * W + (Rect.x r + dx)) in
  let R := src !!! (i * 4 + 2)%nat in
  let G := src !!! (i * 4 + 1)%nat in
  let px := raw_pixel_at (rect_pixels fb W r) r dx dy in
  activeClients srv <> 0 -> frame_acquired f = true -> frame_pixels f = Some src ->
  length (serverFramebuffer srv) = Z.to_nat (W * H * 4) ->
  currentDirtyRects srv' = pre ++ r :: post ->
  0 <= Rect.x r -> 0 <= Rect.y r ->
  Rect.x r + Rect.w r <= W -> Rect.y r + Rect.h r <= H ->
  0 <= dx < Rect.w r -> 0 <= dy < Rect.h r ->
  is_byte R -> is_byte G ->
  sent (events (SendFrameUpdate (currentDirtyRects srv') fb W H inb)) =
    [0; 0; byte_at (u16 (Z.of_nat (length (pre ++ r :: post)))) 8;
           byte_at (u16 (Z.of_nat (length (pre ++ r :: post)))) 0] ++
    flat_map (rect_bytes fb W) pre ++
    rect_header r ++ rect_pixels fb W r ++ flat_map (rect_bytes fb W) post /\
  px = take 4 (drop (i * 4) fb) /\
  length px = 4%nat /\
  px !! 1%nat = Some G /\
  px !! 3%nat = Some 255 /\
  (decode_pixel (pixel_format_of (ServerInit W H NodeVNC)) px).1.2 = G.
Proof.
  intros W H srv' fb i R G px Hac Hacq Hpx Hlen Hrects Hx Hy Hxw Hyh Hdx Hdy HR HG.
  assert (Hwire : px = stored_pixel src i)
    by (eapply committed_pixel_on_wire; eassumption).
  split.
  { destruct (SendFrameUpdate_run (currentDirtyRects srv') fb W H inb) as (_ & -> & _).
    rewrite Hrects. apply FramebufferUpdate_bytes_split. }
  split.
  { subst px. rewrite (raw_pixel_at_rows _ W H); try done.
    - f_equal. f_equal. subst i. nia.
    - subst fb srv'.
      destruct (CaptureLoop_iteration_cases f srv)
        as [[_ [?|?]]|(_ & _ & _ & _ & _ & _ & _ & _ & _ & ->)]; [done|congruence|].
      rewrite Hpx, convert_length. done. }
  rewrite Hwire. repeat split; try reflexivity.
  unfold decode_pixel, pixel_format_of, ServerInit, pixel_value, stored_pixel.
  cbn -[Z.mul Z.add Z.shiftr Z.land Z.of_nat byte_at u32 Nat.mul Nat.add].
  fold G R. unfold be16. cbn [Z.mul Z.add].
  set (B := src !!! (i * 4 + 0)%nat).
  rewrite decide_True by done.
  change (0 * 256 + 255) with (Z.ones 8).
  rewrite Z.land_ones, Z.shiftr_div_pow2 by lia.
  unfold is_byte in *. change (2 ^ 8) with 256.
  Z.div_mod_to_equations. lia.
Qed.

(** The theorem at the second pixel of a 2 x 1 desktop. *)
Lemma C1_raw_pixel_is_store_pixel_witness :
  let srv' := CaptureLoop_iteration tiny_frame tiny_server in
  let fb := serverFramebuffer srv' in
  let px := raw_pixel_at (rect_pixels fb 2 (Rect.mk 0 0 2 1)) (Rect.mk 0 0 2 1) 1 0 in
  sent (events (SendFrameUpdate (currentDirtyRects srv') fb 2 1 [])) =
    [0; 0; 0; 1] ++ [] ++ rect_header (Rect.mk 0 0 2 1) ++
    rect_pixels fb 2 (Rect.mk 0 0 2 1) ++ [] /\
  px = take 4 (drop 4 fb) /\
  length px = 4%nat /\
  px !! 1%nat = Some 2 /\
  px !! 3%nat = Some 255 /\
  (decode_pixel (pixel_format_of (ServerInit 2 1 NodeVNC)) px).1.2 = 2.
Proof.
  apply (C1_raw_pixel_is_store_pixel tiny_server tiny_frame
           [30; 20; 10; 9; 3; 2; 1; 9] [] (Rect.mk 0 0 2 1) [] 1 0 []);
    try reflexivity; try (simpl; lia); try (unfold is_byte; simpl; lia).
Defined.

(** C1, as stated, fails: for the captured pixel (R,G,B) = (1,2,3) the
    wire carries 1, 2, 3, 255, not 3, 2, 1, 0, and a viewer that follows
    the announced PixelFormat shows (3,2,1). *)
Lemma C1_counterexample :
  let srv' := CaptureLoop_iteration tiny_frame tiny_server in
  let fb := serverFramebuffer srv' in
  let wire := sent (events (SendFrameUpdate (currentDirtyRects srv') fb 2 1 [])) in
  let px := raw_pixel_at (drop 16 wire) (Rect.mk 0 0 2 1) 1 0 in
  px = [1; 2; 3; 255] /\
  px <> [3; 2; 1; 0] /\
  decode_pixel (pixel_format_of (ServerInit 2 1 NodeVNC)) px <> (1, 2, 3).
Proof.
  vm_compute. repeat split; discriminate.
Qed.

(** ** The RFB handshake *)

Lemma HandshakeRFB_run w h name inb :
  HandshakeRFB w h name inb =
  (true, drop 13 inb,
   [ Tx ProtocolVersion; Rx 12 (take 12 inb);
     Tx [1; 1]; Rx 1 (take 1 (drop 12 inb));
     Tx (ServerInit w h name) ]).
Proof.
  unfold HandshakeRFB, bindIO, send, recv, retIO.
  cbn [app]. by rewrite drop_drop.
Qed.

(** C3, on the code: a viewer that follows version 003.008 echoes the
    version, sends 01 for the security type None and then 01 for
    ClientInit.  The handshake takes the security type for its one
    byte, the one its comment calls the ClientInit shared flag, and
    sends ServerInit at once: the four bytes after the security list
    are the start of ServerInit (07 80 04 38), no SecurityResult
    00 00 00 00 is sent, and the ClientInit byte stays unread, later to
    be read by the main loop as a message of type 1. *)
Theorem C3_handshake_skips_security_result :
  let hs := HandshakeRFB 1920 1080 NodeVNC client_3_8 in
  events hs =
    [ Tx ProtocolVersion; Rx 12 ProtocolVersion;
      Tx [1; 1]; Rx 1 [1];
      Tx (ServerInit 1920 1080 NodeVNC) ] /\
  events hs <>
    [ Tx ProtocolVersion; Rx 12 ProtocolVersion;
      Tx [1; 1]; Rx 1 [1];
      Tx [0; 0; 0; 0]; Rx 1 [1];
      Tx (ServerInit 1920 1080 NodeVNC) ] /\
  take 4 (drop 14 (sent (events hs))) = [0x07; 0x80; 0x04; 0x38] /\
  result hs = true /\
  unread hs = [1] /\
  events (read_message (mkSession 0 true) (unread hs)) = [Rx 1 [1]; Rx 1024 []].
Proof.
  cbv zeta. rewrite HandshakeRFB_run. vm_compute. repeat split; discriminate.
Qed.

(** ** No WebSocket framing after the upgrade *)

(** Framing adds at least one header per frame. *)
Lemma ws_framed_longer rfb wire :
  ws_framed rfb wire -> rfb <> [] -> (length rfb < length wire)%nat.
Proof.
  intros (chunks & <- & ->) Hne.
  assert (H : (length (concat chunks) + length chunks
               <= length (flat_map ws_binary_frame chunks))%nat).
  { clear Hne. induction chunks as [|c cs IH]; [done|].
    cbn [concat flat_map length]. rewrite !length_app.
    unfold ws_binary_frame at 1. cbn [length]. rewrite length_app. lia. }
  destruct chunks; [done|]. cbn [length] in H. lia.
Qed.

(** C2 (amended). After the HTTP upgrade the server writes every RFB byte
    to the socket as it is, with no WebSocket frame header, and parses the
    inbound bytes directly as RFB, with no frame parsing and no unmasking:
    the handshake puts exactly the version, the security list and
    ServerInit on the wire, a turn of the loop puts nothing or exactly
    the FramebufferUpdate message on the wire, what is read is a prefix of
    what the peer sent, and the first pending byte is taken as the
    message type. *)
Theorem C2_rfb_bytes_sent_unframed srv s w h name inb :
  let hs := HandshakeRFB w h name inb in
  let it := ClientHandler_iteration srv s inb in
  sent (events hs) = ProtocolVersion ++ [1; 1] ++ ServerInit w h name /\
  consumed (events hs) ++ unread hs = inb /\
  (sent (events it) = [] \/
   sent (events it) =
     FramebufferUpdate_bytes (currentDirtyRects srv) (serverFramebuffer srv) (width srv)) /\
  consumed (events it) ++ unread it = inb /\
  (forall b rest, inb = b :: rest ->
     head (events it) = Some (Rx 1 [b]) /\
     result (read_message s inb) =
       Some (mkSession (lastFrameSeen s) (updateRequested s || is_request b))).
Proof.
  cbv zeta. rewrite HandshakeRFB_run. io_proj. split.
  { rewrite !sent_Tx. cbn [sent flat_map app]. by rewrite !app_nil_r. }
  split.
  { cbn [consumed flat_map app]. rewrite app_nil_r.
    replace 13%nat with (12 + 1)%nat by done.
    rewrite <- drop_drop, <- app_assoc, !take_drop. done. }
  rewrite iteration_run. io_proj.
  destruct (read_message_run s inb) as (R1 & R2 & _ & R4).
  rewrite sent_app, consumed_app, R2. cbn [app].
  rewrite send_update_run.
  assert (Hhead : forall b rest ev, inb = b :: rest ->
            head (events (read_message s inb) ++ ev) = Some (Rx 1 [b]) /\
            result (read_message s inb) =
              Some (mkSession (lastFrameSeen s) (updateRequested s || is_request b))).
  { intros b rest ev Hinb. split; [|by rewrite R1, Hinb].
    rewrite Hinb. unfold read_message. rewrite decide_False by done.
    rewrite events_bind, recv_run. io_proj. reflexivity. }
  destruct (wants_update srv _); io_proj.
  - destruct (SendFrameUpdate_run (currentDirtyRects srv) (serverFramebuffer srv)
                (width srv) (height srv) (unread (read_message s inb)))
      as (_ & -> & -> & _).
    rewrite app_nil_r. split; [by right|]. split; [done|]. intros; eapply Hhead; eauto.
  - cbn [sent consumed flat_map]. rewrite app_nil_r.
    split; [by left|]. split; [done|]. intros; eapply Hhead; eauto.
Qed.

(** C2, as stated, fails: what the handshake writes is not a sequence of
    binary frames carrying the RFB handshake bytes. *)
Lemma C2_counterexample :
  let wire := sent (events (HandshakeRFB 1920 1080 NodeVNC client_3_8)) in
  ~ ws_framed (ProtocolVersion ++ [1; 1] ++ ServerInit 1920 1080 NodeVNC) wire.
Proof.
  cbv zeta. intros Hf. apply ws_framed_longer in Hf; [|discriminate].
  vm_compute in Hf. lia.
Qed.

(** The inbound direction: a masked binary frame that carries a
    FramebufferUpdateRequest is not recognised as one. *)
Example masked_request_not_unmasked :
  let frame := ws_masked_frame [1; 2; 3; 4] FramebufferUpdateRequest_sample in
  result (read_message (mkSession 5 false) FramebufferUpdateRequest_sample)
    = Some (mkSession 5 true) /\
  result (read_message (mkSession 5 false) frame) = Some (mkSession 5 false) /\
  head frame = Some 0x82.
Proof. vm_compute. done. Qed.

(** ** The streaming loop *)

Section Streaming.

Variable ComputeSHA1Base64 : list Z -> list Z.

Lemma reachable_worker sys i wk :
  reachable ComputeSHA1Base64 sys -> workers sys !! i = Some wk ->
  store_ok (server sys) /\ session_ok (session wk).
Proof.
  intros Hr Hwk. destruct (reachable_system_ok _ _ Hr) as (Hs & Hw & _).
  split; [done|]. by eapply (Forall_lookup_1 _ _ _ _ Hw).
Qed.

(** C5. In every turn of a session's streaming loop a FramebufferUpdate is
    emitted exactly when [updateRequested] is true and the store's
    [frameCounter] exceeds the session's [lastFrameSeen]; after an
    emission the session has [lastFrameSeen = frameCounter] and
    [updateRequested = false]. *)
Theorem C5_update_emitted_iff sys i wk :
  let srv := server sys in
  let rd := read_message (session wk) (pending wk) in
  let s1 := mkSession (lastFrameSeen (session wk))
              (updateRequested (session wk) || first_is_request (pending wk)) in
  let up := send_update srv s1 (unread rd) in
  reachable ComputeSHA1Base64 sys -> workers sys !! i = Some wk ->
  ClientHandler_iteration srv (session wk) (pending wk) =
    (Some (result up), unread up, events rd ++ events up) /\
  result rd = Some s1 /\
  sent (events rd) = [] /\
  (sent (events up) <> [] <->
     updateRequested s1 = true /\ lastFrameSeen s1 < frameCounter srv) /\
  (sent (events up) <> [] ->
     sent (events up) =
       FramebufferUpdate_bytes (currentDirtyRects srv) (serverFramebuffer srv) (width srv) /\
     result up = mkSession (frameCounter srv) false) /\
  (sent (events up) = [] -> result up = s1).
Proof.
  intros srv rd s1 up Hr Hwk.
  destruct (reachable_worker _ _ _ Hr Hwk) as ([Hg Hrects] & [Hs _]).
  destruct (read_message_run (session wk) (pending wk)) as (R1 & R2 & _).
  split; [apply iteration_run|]. split; [exact R1|]. split; [exact R2|].
  subst up. rewrite send_update_run. unfold wants_update.
  destruct (SendFrameUpdate_run (currentDirtyRects srv) (serverFramebuffer srv)
              (width srv) (height srv) (unread rd)) as (_ & Hsent & _).
  destruct (updateRequested s1) eqn:Hu; cbn [andb].
  - case_bool_decide as Hlt; io_proj.
    + assert (Hne : sent (events (SendFrameUpdate (currentDirtyRects srv)
                      (serverFramebuffer srv) (width srv) (height srv) (unread rd))) <> []).
      { rewrite Hsent, FramebufferUpdate_bytes_nil. apply Hrects.
        cbn [lastFrameSeen s1] in Hlt. fold srv. lia. }
      split; [done|]. split; [done|]. done.
    + cbn [sent flat_map]. split; [split; [done|intros [_ ?]; done]|]. done.
  - io_proj. cbn [sent flat_map]. split; [split; [done|intros [? _]; done]|]. done.
Qed.

(** C4 (amended). No FramebufferUpdate is emitted while the generation
    counter is 0, and a request that arrives then is held pending; a
    session that has not emitted yet emits in its first turn that finds
    the counter non-zero, and that first update carries the store's
    current dirty rectangles: those of the latest committed frame, which
    are the rectangles the capture reported, or the single full-surface
    rectangle (0,0,W,H) when it reported none. *)
Theorem C4_no_update_before_first_frame sys i wk f :
  let srv := server sys in
  let it := ClientHandler_iteration srv (session wk) (pending wk) in
  let srv' := CaptureLoop_iteration f srv in
  reachable ComputeSHA1Base64 sys -> workers sys !! i = Some wk ->
  lastFrameSeen (session wk) = 0 ->
  (frameCounter srv = 0 ->
     sent (events it) = [] /\ result it = Some (mkSession 0 true)) /\
  (frameCounter srv <> 0 ->
     1 <= frameCounter srv /\ currentDirtyRects srv <> [] /\
     sent (events it) =
       FramebufferUpdate_bytes (currentDirtyRects srv) (serverFramebuffer srv) (width srv) /\
     sent (events it) <> [] /\
     result it = Some (mkSession (frameCounter srv) false)) /\
  (activeClients srv <> 0 -> frame_acquired f = true ->
     frameCounter srv' = u64 (frameCounter srv + 1) /\
     currentDirtyRects srv' =
       match frame_dirty f with
       | [] => [Rect.mk 0 0 (width srv) (height srv)]
       | _ => map rect_of_RECT (frame_dirty f)
       end).
Proof.
  intros srv it srv' Hr Hwk Hfresh.
  destruct (reachable_worker _ _ _ Hr Hwk) as ([Hg Hrects] & [_ Hreq]).
  specialize (Hreq Hfresh).
  destruct (read_message_run (session wk) (pending wk)) as (_ & R2 & _).
  subst it. rewrite iteration_run. io_proj. rewrite sent_app, R2. cbn [app].
  rewrite send_update_run. unfold wants_update.
  rewrite Hreq, Hfresh. cbn [updateRequested lastFrameSeen orb andb].
  split; [|split].
  - intros H0. rewrite bool_decide_eq_false_2 by (unfold srv in *; lia).
    io_proj. done.
  - intros Hne. rewrite bool_decide_eq_true_2 by (unfold srv in *; lia). io_proj.
    destruct (SendFrameUpdate_run (currentDirtyRects srv) (serverFramebuffer srv)
                (width srv) (height srv)
                (unread (read_message (session wk) (pending wk)))) as (_ & -> & _).
    split; [unfold srv in *; lia|]. split; [auto|]. split; [done|]. split; [|done].
    rewrite FramebufferUpdate_bytes_nil. auto.
  - intros Hac Hacq.
    destruct (CaptureLoop_iteration_cases f srv)
      as [[_ [?|?]]|(_ & _ & Hc & Hn & _)]; [done|congruence|].
    subst srv'. rewrite Hc, Hn. done.
Qed.
End Streaming.

Lemma reachable_accepted sha : reachable sha sys_accepted.
Proof.
  eapply reachable_step; [eapply reachable_step|].
  - apply (reachable_new sha [ArgObject ∅] initial_server). reflexivity.
  - apply step_start.
  - apply (step_accept sha (Start initial_server) CapNone []). reflexivity.
Qed.

Lemma reachable_entered sha : reachable sha sys_entered.
Proof.
  eapply reachable_step; [apply reachable_accepted|].
  apply (step_enter sha (Start initial_server) CapNone [new_worker] 0%nat new_worker);
    reflexivity.
Qed.

(** The theorem at a freshly accepted client. *)
Lemma C4_no_update_before_first_frame_witness :
  reachable no_digest sys_accepted /\
  workers sys_accepted !! 0%nat = Some new_worker /\
  lastFrameSeen (session new_worker) = 0 /\
  (frameCounter (server sys_accepted) = 0 ->
   sent (events (ClientHandler_iteration (server sys_accepted)
                   (session new_worker) (pending new_worker))) = [] /\
   result (ClientHandler_iteration (server sys_accepted)
             (session new_worker) (pending new_worker)) = Some (mkSession 0 true)).
Proof.
  assert (Hr : reachable no_digest sys_accepted) by apply reachable_accepted.
  assert (Hw : workers sys_accepted !! 0%nat = Some new_worker) by reflexivity.
  assert (Hf : lastFrameSeen (session new_worker) = 0) by reflexivity.
  split; [exact Hr|]. split; [exact Hw|]. split; [exact Hf|].
  exact (proj1 (C4_no_update_before_first_frame no_digest sys_accepted 0%nat
                  new_worker frame_plain Hr Hw Hf)).
Defined.

(** The run that leads to [sys_late]. *)
Lemma small_mode_le : (Z.to_nat (4 * 4 * 4) <= Z.to_nat (1920 * 1080 * 4))%nat.
Proof. apply Z2Nat.inj_le; lia. Qed.

Lemma InitializeDXGI_small :
  InitializeDXGI 4 4 (set_captureRunning true (incr_clients (Start initial_server)))
  = small_server.
Proof.
  unfold InitializeDXGI, small_server. cbn [running captureRunning port password
    activeClients width height serverFramebuffer currentDirtyRects frameCounter
    set_captureRunning incr_clients set_activeClients Start initial_server set_running].
  rewrite (resize_resize _ _ _ _ small_mode_le). reflexivity.
Qed.

Lemma reachable_late : reachable no_digest sys_late.
Proof.
  pose (w1 := mkWorker PcEntry http_upgrade_request (mkSession 0 true) []).
  pose (w2 := mkWorker PcWebSocket http_upgrade_request (mkSession 0 true) []).
  pose (t3 := events (HandshakeWebSocket no_digest http_upgrade_request)).
  pose (w3 := mkWorker PcStartCapture [] (mkSession 0 true) t3).
  pose (w4 := mkWorker PcRFB [] (mkSession 0 true) t3).
  pose (w5 := mkWorker PcRFB (ProtocolVersion ++ [1]) (mkSession 0 true) t3).
  pose (srv1 := incr_clients (Start initial_server)).
  assert (H3 : reachable no_digest (mkSystem (Start initial_server) CapNone [w1])).
  { eapply reachable_step; [apply reachable_accepted|].
    apply (step_arrive no_digest (Start initial_server) CapNone [new_worker] 0%nat
             new_worker http_upgrade_request). reflexivity. }
  assert (H4 : reachable no_digest (mkSystem srv1 CapNone [w2])).
  { eapply reachable_step; [exact H3|].
    apply (step_enter no_digest (Start initial_server) CapNone [w1] 0%nat w1); reflexivity. }
  assert (H5 : reachable no_digest (mkSystem srv1 CapNone [w3])).
  { eapply reachable_step; [exact H4|].
    apply (step_websocket_ok no_digest srv1 CapNone [w2] 0%nat w2);
      [reflexivity|reflexivity|vm_compute; reflexivity]. }
  assert (H6 : reachable no_digest
                 (mkSystem (set_captureRunning true srv1) CapInit [w4])).
  { eapply reachable_step; [exact H5|].
    apply (step_start_capture no_digest srv1 CapNone [w3] 0%nat w3); reflexivity. }
  assert (H7 : reachable no_digest (mkSystem small_server CapLoop [w4])).
  { eapply reachable_step; [exact H6|]. rewrite <- InitializeDXGI_small.
    apply step_capture_init. }
  assert (H9 : reachable no_digest
                 (mkSystem (CaptureLoop_iteration frame_delta
                              (CaptureLoop_iteration frame_plain small_server))
                    CapLoop [w4])).
  { eapply reachable_step; [eapply reachable_step; [exact H7|]|].
    - apply step_capture; reflexivity.
    - apply step_capture; reflexivity. }
  assert (H10 : reachable no_digest
                 (mkSystem (CaptureLoop_iteration frame_delta
                              (CaptureLoop_iteration frame_plain small_server))
                    CapLoop [w5])).
  { eapply reachable_step; [exact H9|].
    apply (step_arrive no_digest _ CapLoop [w4] 0%nat w4 (ProtocolVersion ++ [1])).
    reflexivity. }
  set (srv2 := CaptureLoop_iteration frame_delta
                 (CaptureLoop_iteration frame_plain small_server)) in *.
  set (hs := HandshakeRFB (width srv2) (height srv2)
               (bytes_of_string "NodeVNC") (pending w5)).
  assert (Hw : mkWorker PcLoop (unread hs) (mkSession 0 true) (traffic w5 ++ events hs)
               = mkWorker PcLoop [] (mkSession 0 true) late_traffic)
    by (vm_compute; reflexivity).
  eapply reachable_step; [exact H10|].
  unfold sys_late. fold srv2. rewrite <- Hw.
  apply (step_rfb_ok no_digest srv2 CapLoop [w5] 0%nat w5);
    [reflexivity|reflexivity|vm_compute; reflexivity].
Qed.

(** C4, as stated, fails: two frames are committed while the client is
    still in its handshake, the second with one small dirty rectangle;
    the session's first update carries that rectangle (1,1,2,1), not the
    full surface (0,0,4,4). *)
Lemma C4_counterexample :
  let srv := server sys_late in
  let it := ClientHandler_iteration srv (mkSession 0 true) [] in
  reachable no_digest sys_late /\
  workers sys_late !! 0%nat = Some (mkWorker PcLoop [] (mkSession 0 true) late_traffic) /\
  sent late_traffic =
    upgrade_response [] ++ ProtocolVersion ++ [1; 1] ++ ServerInit 4 4 NodeVNC /\
  frameCounter srv = 2 /\
  take 4 (sent (events it)) = [0; 0; 0; 1] /\
  take 8 (drop 4 (sent (events it))) = [0; 1; 0; 1; 0; 2; 0; 1] /\
  take 8 (drop 4 (sent (events it))) <> take 8 (rect_header (full_surface srv)).
Proof.
  cbv zeta. split; [apply reachable_late|].
  vm_compute. repeat split; discriminate.
Qed.

(** The theorem at a freshly accepted client. *)
Lemma C5_update_emitted_iff_witness :
  reachable no_digest sys_accepted /\
  workers sys_accepted !! 0%nat = Some new_worker /\
  ClientHandler_iteration (server sys_accepted) (session new_worker) (pending new_worker) =
    (Some (mkSession 0 true), [], []).
Proof.
  assert (Hr : reachable no_digest sys_accepted) by apply reachable_accepted.
  assert (Hw : workers sys_accepted !! 0%nat = Some new_worker) by reflexivity.
  split; [exact Hr|]. split; [exact Hw|].
  exact (proj1 (C5_update_emitted_iff no_digest sys_accepted 0%nat new_worker Hr Hw)).
Defined.

(** ** Client messages *)

(** No turn of the loop reaches [SendInput]. *)
Lemma session_never_injects srv s inb :
  injected (events (ClientHandler_iteration srv s inb)) = [].
Proof.
  rewrite iteration_run. io_proj. rewrite injected_app.
  destruct (read_message_run s inb) as (_ & _ & -> & _). cbn [app].
  rewrite send_update_run. destruct (wants_update srv _); io_proj; [|done].
  by destruct (SendFrameUpdate_run (currentDirtyRects srv) (serverFramebuffer srv)
                 (width srv) (height srv) (unread (read_message s inb)))
       as (_ & _ & _ & ->).
Qed.

(** C6, on the code: the bytes 05 02 01 2C 00 C8 are read (one type byte,
    five body bytes) and nothing is passed to the input sink. *)
Theorem C6_pointer_event_dropped srv s :
  let it := ClientHandler_iteration srv s PointerEvent_sample in
  injected (events it) = [] /\
  events (read_message s PointerEvent_sample) = [Rx 1 [5]; Rx 5 [0x02; 0x01; 0x2C; 0x00; 0xC8]] /\
  unread it = [].
Proof.
  cbv zeta. split; [apply session_never_injects|]. split; [reflexivity|].
  rewrite iteration_run. io_proj. rewrite send_update_run.
  destruct (wants_update srv _); io_proj; reflexivity.
Qed.

(** C7 (amended). When a session in the streaming state reads a message
    type byte that is not one of 0, 2, 3, 4, 5, 6, it reads and discards
    up to 1024 of the bytes that follow and goes on streaming; the
    session is not closed. *)
Theorem C7_unknown_message_is_drained srv s msgType rest :
  let it := ClientHandler_iteration srv s (msgType :: rest) in
  msgType <> 0 -> msgType <> 2 -> msgType <> 3 ->
  msgType <> 4 -> msgType <> 5 -> msgType <> 6 ->
  events (read_message s (msgType :: rest)) =
    [Rx 1 [msgType]; Rx 1024 (take 1024 rest)] /\
  result (read_message s (msgType :: rest)) = Some s /\
  (exists s', result it = Some s') /\
  consumed (events it) = msgType :: take 1024 rest /\
  unread it = drop 1024 rest.
Proof.
  intros it H0 H2 H3 H4 H5 H6.
  assert (Hrd : read_message s (msgType :: rest) =
                (Some s, drop 1024 rest, [Rx 1 [msgType]; Rx 1024 (take 1024 rest)])).
  { unfold read_message. rewrite decide_False by done.
    unfold bindIO. rewrite recv_run. cbn [take drop]. rewrite take_0, drop_0.
    unfold dispatch. rewrite !decide_False by done.
    rewrite drain_run, retIO_run. reflexivity. }
  rewrite Hrd. io_proj. split; [reflexivity|]. split; [reflexivity|].
  subst it. rewrite iteration_run, Hrd. io_proj.
  rewrite send_update_run, consumed_app.
  split; [eauto|].
  destruct (wants_update srv _); io_proj.
  - destruct (SendFrameUpdate_run (currentDirtyRects srv) (serverFramebuffer srv)
                (width srv) (height srv) (drop 1024 rest)) as (_ & _ & -> & _).
    cbn [consumed flat_map app]. rewrite !app_nil_r. split; reflexivity.
  - cbn [consumed flat_map app]. rewrite !app_nil_r. split; reflexivity.
Qed.

(** The theorem at message type 7. *)
Lemma C7_unknown_message_is_drained_witness :
  (7 <> 0 /\ 7 <> 2 /\ 7 <> 3 /\ 7 <> 4 /\ 7 <> 5 /\ 7 <> 6) /\
  events (read_message (mkSession 0 true) [7; 1; 2; 3]) =
    [Rx 1 [7]; Rx 1024 (take 1024 [1; 2; 3])].
Proof.
  split; [repeat split; lia|].
  apply (C7_unknown_message_is_drained small_server (mkSession 0 true) 7 [1; 2; 3]); lia.
Defined.

(** C7, as stated, fails: after message type 7 the loop goes on and the
    three bytes that followed are gone. *)
Lemma C7_counterexample :
  let it := ClientHandler_iteration small_server (mkSession 0 true) [7; 1; 2; 3] in
  result it <> None /\ consumed (events it) = [7; 1; 2; 3] /\ consumed (events it) <> [7].
Proof. vm_compute. repeat split; discriminate. Qed.

(** ** Pointer coordinates *)

(** On the surface the product fits an [int]: the call injects
    [x * (65535 / width)] and [y * (65535 / height)] as they are. *)
Lemma SendInput_mouse_run srv x y button key inb :
  0 < width srv -> 0 < height srv -> 0 <= x < width srv -> 0 <= y < height srv ->
  exists dwFlags,
    SendInput srv 0 x y button key inb =
      (Some tt, inb,
       [Inject (MouseInput (x * (65535 ÷ width srv)) (y * (65535 ÷ height srv)) dwFlags)]).
Proof.
  intros HW HH Hx Hy. unfold SendInput.
  rewrite decide_True by done.
  rewrite (decide_False (P := width srv = 0)) by lia.
  rewrite (decide_False (P := height srv = 0)) by lia.
  assert (Hfit : forall v e, 0 < e -> 0 <= v < e -> s32 (v * (65535 ÷ e)) = v * (65535 ÷ e)).
  { intros v e He Hv. apply s32_small. rewrite Z.quot_div_nonneg by lia.
    pose proof (Z.div_mod 65535 e ltac:(lia)) as Hq.
    pose proof (Z.mod_pos_bound 65535 e He) as Hr.
    assert (0 <= 65535 / e) by (apply Z.div_pos; lia). nia. }
  rewrite !Hfit by done. eexists. reflexivity.
Qed.

(** Off the surface the model follows the machine: the product wraps,
    and a zero extent ends the call with nothing injected. *)
Example SendInput_product_wraps :
  SendInput (mkServer true true 5900 EmptyString 1 1 1 [] [] 0) 0 100000 65535 0 0 [] =
    (Some tt, [], [Inject (MouseInput (-2036434592) (-131071) 0x8001)]) /\
  SendInput (mkServer true true 5900 EmptyString 1 0 1080 [] [] 0) 0 10 10 0 0 [] =
    (None, [], []).
Proof. split; reflexivity. Qed.


(** ** The client counter *)

Lemma count_workers_counted ws :
  count_workers counted ws = count_workers streaming ws + count_workers handshaking ws.
Proof.
  induction ws as [|wk ws IH]; [done|].
  rewrite !count_workers_cons, IH. destruct (pc wk); cbn; lia.
Qed.

(** C9 (amended). At every point, [activeClients] equals the number of
    session threads that have entered [ClientHandler] and not yet left
    it: the sessions in the streaming loop together with those still in
    the WebSocket or RFB handshake (fewer than 2^31 of them). *)
Theorem C9_active_clients_counts_entered_sessions sha sys :
  reachable sha sys ->
  count_workers counted (workers sys) < 2147483648 ->
  activeClients (server sys) =
    count_workers streaming (workers sys) + count_workers handshaking (workers sys).
Proof.
  intros Hr Hlt. destruct (reachable_system_ok _ _ Hr) as (_ & _ & ->).
  rewrite s32_small, count_workers_counted; [done|].
  pose proof (count_workers_nonneg counted (workers sys)). lia.
Qed.

(** The theorem at a client that is about to start its handshake. *)
Lemma C9_active_clients_counts_entered_sessions_witness :
  reachable no_digest sys_entered /\
  count_workers counted (workers sys_entered) < 2147483648 /\
  activeClients (server sys_entered) =
    count_workers streaming (workers sys_entered) +
    count_workers handshaking (workers sys_entered).
Proof.
  assert (Hr : reachable no_digest sys_entered) by apply reachable_entered.
  assert (Hc : count_workers counted (workers sys_entered) < 2147483648) by reflexivity.
  split; [exact Hr|]. split; [exact Hc|].
  exact (C9_active_clients_counts_entered_sessions no_digest sys_entered Hr Hc).
Defined.

(** C9, as stated, fails: a client that has not started the WebSocket
    handshake is already counted. *)
Lemma C9_counterexample :
  reachable no_digest sys_entered /\
  activeClients (server sys_entered) = 1 /\
  count_workers streaming (workers sys_entered) = 0.
Proof.
  split; [apply reachable_entered|]. split; reflexivity.
Qed.

(** ** The constructor *)

(** C10. When the options object omits "port" the port is 5900, when it
    omits "password" the password is the empty string, and whatever
    fields are present the server starts with [running] and
    [captureRunning] false, no active clients and a framebuffer of
    1920 * 1080 * 4 bytes. *)
Theorem C10_constructor_defaults (o : gmap string JsValue) (rest : list JsArg)
    (srv : VncServer) :
  VncServer_new (ArgObject o :: rest) = Some srv ->
  (o !! "port"%string = None -> port srv = 5900) /\
  (o !! "password"%string = None -> password srv = EmptyString) /\
  running srv = false /\
  captureRunning srv = false /\
  activeClients srv = 0 /\
  length (serverFramebuffer srv) = Z.to_nat (1920 * 1080 * 4).
Proof.
  intros Hnew.
  destruct (VncServer_new_fields _ _ Hnew) as (Hr & Hc & Ha & _ & _ & Hfb & _).
  rewrite Hr, Hc, Ha, Hfb, length_resize.
  unfold VncServer_new in Hnew.
  destruct (o !! "port"%string) as [pv|] eqn:Hp;
    destruct (o !! "password"%string) as [wv|] eqn:Hw.
  - done.
  - destruct (Int32Value pv); [|discriminate].
    apply (inj Some) in Hnew. rewrite <- Hnew. done.
  - destruct (Utf8Value wv); [|discriminate].
    apply (inj Some) in Hnew. rewrite <- Hnew. done.
  - apply (inj Some) in Hnew. rewrite <- Hnew. done.
Qed.

(** The theorem at the empty options object. *)
Lemma C10_constructor_defaults_witness :
  VncServer_new [ArgObject ∅] = Some initial_server /\
  port initial_server = 5900 /\ password initial_server = EmptyString.
Proof.
  assert (Hn : VncServer_new [ArgObject ∅] = Some initial_server) by reflexivity.
  split; [exact Hn|].
  destruct (C10_constructor_defaults ∅ [] initial_server Hn) as (Hp & Hw & _).
  split; [apply Hp|apply Hw]; reflexivity.
Defined.

(** * More of the code *)

(** ** What goes over the wire *)

Lemma byte_at_0 v : byte_at v 0 = v mod 256.
Proof.
  unfold byte_at. rewrite Z.shiftr_0_r.
  change 255 with (Z.ones 8). by rewrite Z.land_ones by lia.
Qed.

Lemma byte_at_div v k : 0 <= k -> byte_at v k = (v / 2 ^ k) mod 256.
Proof.
  intros Hk. unfold byte_at. rewrite Z.shiftr_div_pow2 by lia.
  change 255 with (Z.ones 8). by rewrite Z.land_ones by lia.
Qed.

Lemma be16_byte_at v : be16 (byte_at v 8) (byte_at v 0) = v mod 65536.
Proof.
  rewrite byte_at_0, byte_at_div by lia. unfold be16.
  change (2 ^ 8) with 256. Z.div_mod_to_equations. lia.
Qed.

Lemma be32_byte_at v :
  be32 (byte_at v 24) (byte_at v 16) (byte_at v 8) (byte_at v 0) = v mod 4294967296.
Proof.
  rewrite byte_at_0, !byte_at_div by lia. unfold be32.
  change (2 ^ 8) with 256. change (2 ^ 16) with 65536. change (2 ^ 24) with 16777216.
  Z.div_mod_to_equations. lia.
Qed.

(** X1. A rectangle header is twelve bytes: the position and the size,
    each reduced modulo 65536 and written big-endian, and the encoding
    0 (Raw).  Nothing checks that they fit sixteen bits. *)
Theorem rect_header_wraps (r : Rect.t) (rest : list Z) :
  decode_rect_header (rect_header r ++ rest) =
    (Rect.mk (Rect.x r mod 65536) (Rect.y r mod 65536)
             (Rect.w r mod 65536) (Rect.h r mod 65536), 0) /\
  length (rect_header r) = 12%nat.
Proof.
  split; [|reflexivity].
  unfold decode_rect_header, rect_header. cbn [app].
  change ((?a :: ?l) !!! 0%nat) with a.
  cbn [lookup_total list_lookup_total].
  rewrite !be16_byte_at. reflexivity.
Qed.

Lemma length_flat_map_rows (f : nat -> list Z) (L n : nat) :
  (forall y, (y < n)%nat -> length (f y) = L) ->
  length (flat_map f (seq 0 n)) = (n * L)%nat.
Proof.
  intros Hlen. induction n as [|n IH]; [done|].
  rewrite seq_S, flat_map_app, length_app. cbn [flat_map Nat.add].
  rewrite app_nil_r, IH, Hlen by (intros; try apply Hlen; lia). lia.
Qed.

Lemma rect_pixels_length fb W H r :
  rect_in_bounds W H r -> length fb = Z.to_nat (W * H * 4) ->
  length (rect_pixels fb W r) = Z.to_nat (Rect.w r * Rect.h r * 4).
Proof.
  intros (Hx & Hy & Hw & Hh & Hxw & Hyh) Hfb. unfold rect_pixels.
  rewrite (length_flat_map_rows _ (Z.to_nat (Rect.w r * 4))).
  - nia.
  - intros y Hlt. eapply rect_row_length; eauto.
Qed.

Lemma decode_rect_header_fits W H r rest :
  rect_in_bounds W H r -> W < 65536 -> H < 65536 ->
  decode_rect_header (rect_header r ++ rest) = (r, 0).
Proof.
  intros (Hx & Hy & Hw & Hh & Hxw & Hyh) HW HH.
  unfold decode_rect_header, rect_header. cbn [app].
  cbn [lookup_total list_lookup_total].
  rewrite !be16_byte_at, !Z.mod_small by lia. by destruct r.
Qed.

Lemma parse_rects_step n r px rest :
  decode_rect_header (rect_header r ++ px ++ rest) = (r, 0) ->
  length px = Z.to_nat (Rect.w r * Rect.h r * 4) ->
  parse_rects (S n) (rect_header r ++ px ++ rest) =
    match parse_rects n rest with
    | Some (l, t) => Some ((r, px) :: l, t)
    | None => None
    end.
Proof.
  intros Hdec Hlen. cbn [parse_rects].
  rewrite decide_False by (rewrite length_app; cbn; lia).
  rewrite Hdec. rewrite decide_True by done.
  change (drop 12 (rect_header r ++ ?l)) with l.
  rewrite decide_False by (rewrite length_app; lia).
  by rewrite <- Hlen, drop_app_length, take_app_length.
Qed.

Lemma parse_rects_bytes fb W H rects tail :
  Forall (rect_in_bounds W H) rects -> W < 65536 -> H < 65536 ->
  length fb = Z.to_nat (W * H * 4) ->
  parse_rects (length rects) (flat_map (rect_bytes fb W) rects ++ tail) =
    Some (map (fun r => (r, rect_pixels fb W r)) rects, tail).
Proof.
  intros Hall HW HH Hfb. induction Hall as [|r rects Hr _ IH]; [done|].
  change (flat_map (rect_bytes fb W) (r :: rects))
    with ((rect_header r ++ rect_pixels fb W r) ++ flat_map (rect_bytes fb W) rects).
  change (length (r :: rects)) with (S (length rects)).
  rewrite <- !(app_assoc (A:=Z)).
  rewrite parse_rects_step, IH; [done| |].
  - by apply (decode_rect_header_fits W H).
  - by apply (rect_pixels_length fb W H).
Qed.

(** X2. For rectangles that lie on the surface (fewer than 65536 of
    them, on a surface of the store's size), the bytes of one
    [SendFrameUpdate] are one well-formed FramebufferUpdate message: a
    reader of Raw rectangles gets back exactly the rectangles sent, each
    with its [w * h * 4] bytes of the store, and no byte is left over. *)
Theorem update_message_parses_back rects fb W H inb :
  Forall (rect_in_bounds W H) rects -> W < 65536 -> H < 65536 ->
  length fb = Z.to_nat (W * H * 4) ->
  0 < Z.of_nat (length rects) < 65536 ->
  parse_update (sent (events (SendFrameUpdate rects fb W H inb))) =
    Some (map (fun r => (r, rect_pixels fb W r)) rects, []) /\
  Forall (fun r => length (rect_pixels fb W r) = Z.to_nat (Rect.w r * Rect.h r * 4)) rects.
Proof.
  intros Hall HW HH Hfb Hn. split.
  - destruct (SendFrameUpdate_run rects fb W H inb) as (_ & -> & _).
    unfold FramebufferUpdate_bytes. destruct rects as [|r0 rects0] eqn:E; [cbn in Hn; lia|].
    rewrite <- E in *. cbn [app parse_update].
    rewrite be16_byte_at. unfold u16. rewrite Zmod_mod, Z.mod_small by lia.
    rewrite Nat2Z.id.
    rewrite <- (app_nil_r (flat_map _ rects)).
    apply (parse_rects_bytes fb W H rects []); done.
  - eapply Forall_impl; [exact Hall|]. intros r Hr.
    by apply (rect_pixels_length fb W H).
Qed.

Lemma update_message_parses_back_witness :
  parse_update (sent (events (SendFrameUpdate [Rect.mk 1 1 2 1] (grey 64) 4 4 []))) =
    Some ([(Rect.mk 1 1 2 1, grey 8)], []).
Proof.
  assert (Hb : Forall (rect_in_bounds 4 4) [Rect.mk 1 1 2 1]).
  { constructor; [|constructor]. unfold rect_in_bounds. simpl. lia. }
  assert (Hl : length (grey 64) = Z.to_nat (4 * 4 * 4)) by reflexivity.
  assert (Hn : 0 < Z.of_nat (length [Rect.mk 1 1 2 1]) < 65536) by (simpl; lia).
  exact (proj1 (update_message_parses_back [Rect.mk 1 1 2 1] (grey 64) 4 4 []
                  Hb eq_refl eq_refl Hl Hn)).
Defined.

(** X3. ServerInit is [24 + length name] bytes, and it reads back as the
    width, the height, the 32-bit little-endian true-colour format with
    maxima 255 and shifts 16, 8, 0, and the name, whenever width and
    height fit sixteen bits. *)
Theorem ServerInit_parses_back w h name :
  0 <= w < 65536 -> 0 <= h < 65536 -> Z.of_nat (length name) < 4294967296 ->
  parse_ServerInit (ServerInit w h name) =
    Some (w, h, mkPixelFormat 32 24 0 1 255 255 255 16 8 0, name) /\
  length (ServerInit w h name) = (24 + length name)%nat.
Proof.
  intros Hw Hh Hn. split; [|by unfold ServerInit; rewrite length_app].
  unfold parse_ServerInit.
  rewrite decide_False by (unfold ServerInit; rewrite length_app; cbn; lia).
  assert (Hlen : be32 (ServerInit w h name !!! 20%nat) (ServerInit w h name !!! 21%nat)
                   (ServerInit w h name !!! 22%nat) (ServerInit w h name !!! 23%nat)
                 = Z.of_nat (length name)).
  { unfold ServerInit. cbn [app lookup_total list_lookup_total].
    rewrite be32_byte_at. unfold u32. rewrite Zmod_mod, Z.mod_small by lia. done. }
  rewrite Hlen.
  rewrite decide_True by (unfold ServerInit; rewrite length_app; cbn [length]; lia).
  f_equal. unfold ServerInit, pixel_format_of. cbn [app lookup_total list_lookup_total drop].
  rewrite !be16_byte_at, !Z.mod_small by lia. reflexivity.
Qed.

Lemma ServerInit_parses_back_witness :
  parse_ServerInit (ServerInit 1920 1080 NodeVNC) =
    Some (1920, 1080, mkPixelFormat 32 24 0 1 255 255 255 16 8 0, NodeVNC) /\
  length (ServerInit 1920 1080 NodeVNC) = 31%nat.
Proof.
  apply (ServerInit_parses_back 1920 1080 NodeVNC); [lia|lia|reflexivity].
Defined.

(** ** The WebSocket handshake *)

Lemma is_prefix_take p l : is_prefix p l = true <-> take (length p) l = p.
Proof.
  revert l. induction p as [|a p IH]; intros l; [done|].
  destruct l as [|b l]; cbn [is_prefix length take]; [done|].
  case_decide as Hab.
  - subst b. rewrite IH. split; [by intros ->|by intros [= ->]].
  - split; [done|]. intros [= ? _]. congruence.
Qed.

Lemma occurs_at_0 needle hay : occurs_at needle hay 0 <-> is_prefix needle hay = true.
Proof. unfold occurs_at. rewrite drop_0. symmetry. apply is_prefix_take. Qed.

Lemma occurs_at_S needle c hay i :
  occurs_at needle (c :: hay) (S i) <-> occurs_at needle hay i.
Proof. reflexivity. Qed.

(** [find_sub] finds the first occurrence. *)
Lemma find_sub_first needle hay i :
  occurs_at needle hay i -> (i <= length hay)%nat ->
  (forall j, (j < i)%nat -> ~ occurs_at needle hay j) ->
  find_sub needle hay = Some i.
Proof.
  revert i. induction hay as [|c hay IH]; intros i Hocc Hlen Hfirst.
  - assert (i = 0%nat) as -> by (cbn in Hlen; lia).
    apply occurs_at_0 in Hocc. cbn [find_sub]. by rewrite Hocc.
  - destruct i as [|i]; cbn [find_sub].
    + apply occurs_at_0 in Hocc. by rewrite Hocc.
    + destruct (is_prefix needle (c :: hay)) eqn:Hp.
      { exfalso. apply (Hfirst 0%nat); [lia|]. by apply occurs_at_0. }
      rewrite (IH i); [done|done|cbn in Hlen; lia|].
      intros j Hj Hoc. apply (Hfirst (S j)); [lia|]. by apply occurs_at_S.
Qed.

Lemma find_sub_absent needle hay :
  (forall j, ~ occurs_at needle hay j) -> find_sub needle hay = None.
Proof.
  induction hay as [|c hay IH]; intros Hno; cbn [find_sub].
  - destruct (is_prefix needle []) eqn:Hp; [|done].
    exfalso. apply (Hno 0%nat). by apply occurs_at_0.
  - destruct (is_prefix needle (c :: hay)) eqn:Hp.
    { exfalso. apply (Hno 0%nat). by apply occurs_at_0. }
    rewrite IH; [done|]. intros j Hoc. apply (Hno (S j)). by apply occurs_at_S.
Qed.

Lemma find_sub_Some_inv needle hay i :
  find_sub needle hay = Some i ->
  occurs_at needle hay i /\ forall j, (j < i)%nat -> ~ occurs_at needle hay j.
Proof.
  revert i. induction hay as [|c hay IH]; intros i; cbn [find_sub].
  - destruct (is_prefix needle []) eqn:Hp; [|done].
    intros [= <-]. split; [by apply occurs_at_0|]. intros; lia.
  - destruct (is_prefix needle (c :: hay)) eqn:Hp.
    { intros [= <-]. split; [by apply occurs_at_0|]. intros; lia. }
    destruct (find_sub needle hay) as [k|] eqn:Hf; [|done].
    cbn. intros [= <-]. destruct (IH k eq_refl) as [Hk Hno]. split; [by apply occurs_at_S|].
    intros [|j] Hj; [rewrite occurs_at_0, Hp; done|].
    rewrite occurs_at_S. apply Hno. lia.
Qed.

Lemma find_sub_None_inv needle hay :
  find_sub needle hay = None -> forall j, ~ occurs_at needle hay j.
Proof.
  induction hay as [|c hay IH]; cbn [find_sub].
  - destruct (is_prefix needle []) eqn:Hp; [done|]. intros _ j Hoc.
    assert (needle = []) as ->.
    { unfold occurs_at in Hoc. rewrite drop_nil, take_nil in Hoc. done. }
    done.
  - destruct (is_prefix needle (c :: hay)) eqn:Hp; [done|].
    destruct (find_sub needle hay) as [k|] eqn:Hf; [done|].
    intros _ [|j]; [rewrite occurs_at_0, Hp; done|].
    rewrite occurs_at_S. by apply IH.
Qed.

Lemma c_str_no_NUL buf : Forall (fun b => b <> 0) buf -> c_str buf = buf.
Proof.
  induction 1 as [|b buf Hb _ IH]; [done|].
  cbn [c_str]. rewrite decide_False by done. by rewrite IH.
Qed.

(** No CRLF starts inside a run of bytes without CR. *)
Lemma no_CRLF_inside l rest j :
  Forall (fun b => b <> 13) l -> (j < length l)%nat -> ~ occurs_at CRLF (l ++ rest) j.
Proof.
  intros Hl Hj Hoc. unfold occurs_at in Hoc.
  assert (Hfirst : (l ++ rest) !! j = Some 13).
  { rewrite <- (Nat.add_0_r j), <- lookup_drop.
    rewrite <- (lookup_take_lt _ (length CRLF)) by (cbn; lia). by rewrite Hoc. }
  rewrite lookup_app_l in Hfirst by done.
  rewrite Forall_lookup in Hl. by apply (Hl j 13).
Qed.

Section WebSocket.
Variable ComputeSHA1Base64 : list Z -> list Z.

(** X4. A request of at most 4095 bytes without a NUL byte that carries
    the key header is accepted whatever else it holds: the key is what
    stands between the first occurrence of the header and the next CRLF,
    the response is the 101 answer for the digest of that key, and the
    whole request is consumed. *)
Theorem HandshakeWebSocket_accepts pre key rest :
  let inb := pre ++ keyHeader ++ key ++ CRLF ++ rest in
  (length inb <= 4095)%nat ->
  Forall (fun b => b <> 0) inb ->
  Forall (fun b => b <> 13) key ->
  (forall j, (j < length pre)%nat -> ~ occurs_at keyHeader inb j) ->
  HandshakeWebSocket ComputeSHA1Base64 inb =
    (true, [], [Rx 4095 inb; Tx (upgrade_response (ComputeSHA1Base64 key))]).
Proof.
  intros inb Hlen Hnul Hkey Hfirst.
  assert (Hpos : find_sub keyHeader inb = Some (length pre)).
  { apply find_sub_first; [|subst inb; rewrite length_app; lia|done].
    unfold occurs_at. subst inb. by rewrite drop_app_length, take_app_length. }
  assert (Hend : find_sub CRLF (drop (length pre) inb)
                 = Some (length keyHeader + length key)%nat).
  { subst inb. rewrite drop_app_length.
    rewrite (app_assoc keyHeader key). apply find_sub_first.
    - unfold occurs_at. rewrite <- length_app, drop_app_length.
      by rewrite take_app_length.
    - rewrite !length_app. lia.
    - intros j Hj. apply no_CRLF_inside; [|by rewrite length_app].
      apply Forall_app. split; [|done].
      unfold keyHeader. vm_compute. repeat constructor; discriminate. }
  unfold HandshakeWebSocket, bindIO. rewrite recv_run.
  rewrite take_ge, drop_ge by done.
  rewrite decide_False by (subst inb; rewrite !length_app; cbn; lia).
  rewrite c_str_no_NUL by done. rewrite Hpos, Hend.
  replace (length pre + (length keyHeader + length key) - (length pre + length keyHeader))%nat
    with (length key) by lia.
  assert (Hk : take (length key) (drop (length pre + length keyHeader) inb) = key).
  { subst inb. rewrite <- drop_drop, drop_app_length, drop_app_length.
    by rewrite take_app_length. }
  rewrite Hk. reflexivity.
Qed.

(** X5. When the text read (up to 4095 bytes, cut at the first NUL) does
    not contain the key header, the handshake fails without sending a
    byte; what was read is gone. *)
Theorem HandshakeWebSocket_rejects inb :
  (forall j, ~ occurs_at keyHeader (c_str (take 4095 inb)) j) ->
  HandshakeWebSocket ComputeSHA1Base64 inb =
    (false, drop 4095 inb, [Rx 4095 (take 4095 inb)]).
Proof.
  intros Hno. unfold HandshakeWebSocket, bindIO. rewrite recv_run.
  case_decide; [reflexivity|].
  by rewrite (find_sub_absent _ _ Hno).
Qed.
End WebSocket.

Lemma HandshakeWebSocket_accepts_witness :
  HandshakeWebSocket no_digest http_upgrade_request =
    (true, [], [Rx 4095 http_upgrade_request; Tx (upgrade_response (no_digest sample_key))]).
Proof.
  assert (Hf : find_sub keyHeader http_upgrade_request =
               Some (length upgrade_request_head)) by (vm_compute; reflexivity).
  apply (HandshakeWebSocket_accepts no_digest upgrade_request_head sample_key CRLF).
  - vm_compute. lia.
  - apply (bool_decide_unpack _). vm_compute. exact I.
  - apply (bool_decide_unpack _). vm_compute. exact I.
  - exact (proj2 (find_sub_Some_inv _ _ _ Hf)).
Defined.

Lemma HandshakeWebSocket_rejects_witness :
  HandshakeWebSocket no_digest plain_http_request =
    (false, [], [Rx 4095 plain_http_request]).
Proof.
  apply (HandshakeWebSocket_rejects no_digest plain_http_request).
  apply find_sub_None_inv. vm_compute. reflexivity.
Defined.

(** ** The main loop *)

Lemma is_byte_all_bytes b : is_byte b -> In b all_bytes.
Proof.
  intros [H0 H1]. unfold all_bytes. rewrite <- (Z2Nat.id b) by lia.
  apply in_map, in_seq. lia.
Qed.

Lemma numEncodings_of_bytes hi lo :
  is_byte hi -> is_byte lo ->
  numEncodings_of hi lo = (if decide (lo < 128) then hi else 255) * 256 + lo.
Proof.
  intros Hhi Hlo.
  assert (Hall : forallb (fun h => forallb (fun l =>
            Z.eqb (numEncodings_of h l)
                  ((if decide (l < 128) then h else 255) * 256 + l)) all_bytes)
            all_bytes = true) by (vm_compute; reflexivity).
  rewrite forallb_forall in Hall.
  specialize (Hall hi (is_byte_all_bytes hi Hhi)).
  rewrite forallb_forall in Hall.
  specialize (Hall lo (is_byte_all_bytes lo Hlo)).
  by apply Z.eqb_eq in Hall.
Qed.

(** X6. SetEncodings: the count is built from two [char]s, so a low
    count byte of 128 or more sign-extends over the high byte.  The
    session then reads [4 * count] bytes and stays in the loop, its
    state untouched. *)
Theorem SetEncodings_consumes s pad hi lo rest :
  let n := (if decide (lo < 128) then hi else 255) * 256 + lo in
  is_byte hi -> is_byte lo ->
  read_message s (2 :: pad :: hi :: lo :: rest) =
    (Some s, drop (Z.to_nat (n * 4)) rest,
     [Rx 1 [2]; Rx 3 [pad; hi; lo];
      Rx (Z.to_nat (n * 4)) (take (Z.to_nat (n * 4)) rest)]).
Proof.
  intros n Hhi Hlo. subst n. rewrite <- (numEncodings_of_bytes hi lo) by done.
  unfold read_message. rewrite decide_False by done.
  unfold bindIO. rewrite recv_run. cbn [take drop].
  unfold dispatch. rewrite decide_False, decide_True by done.
  unfold bindIO. rewrite !recv_run. reflexivity.
Qed.

Lemma SetEncodings_consumes_witness :
  read_message (mkSession 0 true) SetEncodings_sample =
    (Some (mkSession 0 true), [],
     [Rx 1 [2]; Rx 3 [0; 0; 2]; Rx 8 [0; 0; 0; 0; 0; 0; 0; 1]]).
Proof.
  apply (SetEncodings_consumes (mkSession 0 true) 0 0 2 [0; 0; 0; 0; 0; 0; 0; 1]);
    unfold is_byte; lia.
Defined.

(** One more turn of the loop, spelled out. *)
Lemma ClientHandler_loop_turn t turns s inb :
  turn_running t = true ->
  let it := ClientHandler_iteration (turn_server t) s (inb ++ turn_arrived t) in
  exists s1,
    result it = Some s1 /\
    ClientHandler_loop (t :: turns) s inb =
      (result (ClientHandler_loop turns s1 (unread it)),
       unread (ClientHandler_loop turns s1 (unread it)),
       events it ++ events (ClientHandler_loop turns s1 (unread it))).
Proof.
  intros Hrun it. subst it. cbn [ClientHandler_loop]. rewrite Hrun.
  rewrite iteration_run. io_proj. eexists. split; [reflexivity|].
  by destruct (ClientHandler_loop turns _ _) as [[s2 inb2] ev2].
Qed.

Lemma ClientHandler_loop_stopped t turns s inb :
  turn_running t = false -> ClientHandler_loop (t :: turns) s inb = (s, inb, []).
Proof. intros Hrun. cbn [ClientHandler_loop]. by rewrite Hrun. Qed.

Lemma fixed_message_read s t body rest :
  fixed_message (t :: body) ->
  exists s1,
    read_message s ((t :: body) ++ rest) =
      (Some s1, rest, [Rx 1 [t]; Rx (length body) body]).
Proof.
  cbn [fixed_message]. intros Hlen.
  unfold read_message. rewrite decide_False by done.
  unfold bindIO. rewrite recv_run. cbn [app take drop]. rewrite take_0, drop_0.
  unfold body_length in Hlen. unfold dispatch.
  repeat case_decide; try discriminate; try lia; injection Hlen as Hlen;
    rewrite drain_run, Hlen, take_app_length, drop_app_length;
    eexists; reflexivity.
Qed.

Lemma fixed_message_turn srv s m rest :
  fixed_message m ->
  let it := ClientHandler_iteration srv s (m ++ rest) in
  unread it = rest /\ consumed (events it) = m /\ injected (events it) = [].
Proof.
  intros Hm it. subst it. split; [|split; [|apply session_never_injects]];
    destruct m as [|t body]; try done;
    destruct (fixed_message_read s t body rest Hm) as (s1 & Hrd);
    rewrite iteration_run; io_proj; rewrite ?consumed_app, send_update_run, Hrd; io_proj.
  - destruct (wants_update srv _); by io_proj.
  - change (consumed [Rx 1 [t]; Rx (length body) body]) with ([t] ++ body ++ []).
    rewrite app_nil_r. cbn [app].
    destruct (wants_update srv _); io_proj.
    + destruct (SendFrameUpdate_run (currentDirtyRects srv) (serverFramebuffer srv)
                  (width srv) (height srv) rest) as (_ & _ & -> & _).
      by rewrite app_nil_r.
    + by rewrite app_nil_r.
Qed.

(** X7. The loop reads one message per turn.  When complete
    SetPixelFormat, FramebufferUpdateRequest, KeyEvent and PointerEvent
    messages are pending, that many turns consume exactly these
    messages and leave what follows unread; no input is injected. *)
Theorem fixed_messages_one_per_turn turns s msgs rest :
  Forall fixed_message msgs ->
  Forall (fun t => turn_running t = true /\ turn_arrived t = []) turns ->
  length turns = length msgs ->
  let run := ClientHandler_loop turns s (concat msgs ++ rest) in
  unread run = rest /\ consumed (events run) = concat msgs /\ injected (events run) = [].
Proof.
  intros Hmsgs. revert turns s.
  induction Hmsgs as [|m msgs Hm _ IH]; intros turns s Hturns Hlen.
  - destruct turns; [done|discriminate].
  - destruct turns as [|t turns]; [discriminate|].
    apply Forall_cons in Hturns as [[Hrun Harr] Hturns].
    injection Hlen as Hlen. cbv zeta.
    destruct (ClientHandler_loop_turn t turns s (concat (m :: msgs) ++ rest) Hrun)
      as (s1 & _ & ->).
    rewrite Harr, app_nil_r. cbn [concat]. rewrite <- app_assoc.
    destruct (fixed_message_turn (turn_server t) s m (concat msgs ++ rest) Hm)
      as (-> & Hc & Hi).
    destruct (IH turns s1 Hturns Hlen) as (IH1 & IH2 & IH3).
    io_proj. rewrite consumed_app, injected_app, Hc, Hi, IH1, IH2, IH3. done.
Qed.

Lemma fixed_messages_one_per_turn_witness :
  let run := ClientHandler_loop quiet_turns (mkSession 0 true)
               (concat [FramebufferUpdateRequest_sample; PointerEvent_sample] ++ []) in
  unread run = [] /\
  consumed (events run) = concat [FramebufferUpdateRequest_sample; PointerEvent_sample] /\
  injected (events run) = [].
Proof.
  apply (fixed_messages_one_per_turn quiet_turns (mkSession 0 true)
           [FramebufferUpdateRequest_sample; PointerEvent_sample] []).
  - repeat constructor.
  - repeat constructor.
  - reflexivity.
Defined.

Lemma quiet_turn srv s :
  ClientHandler_iteration srv s [] =
    if wants_update srv s
    then (Some (mkSession (frameCounter srv) false), [],
          events (SendFrameUpdate (currentDirtyRects srv) (serverFramebuffer srv)
                    (width srv) (height srv) []))
    else (Some s, [], []).
Proof.
  rewrite iteration_run. cbn [first_is_request]. rewrite orb_false_r, session_eta.
  change (read_message s []) with (Some s, @nil Z, @nil Event). io_proj.
  rewrite send_update_run. destruct (wants_update srv s); by io_proj.
Qed.

Lemma idle_session_stays_quiet turns s :
  Forall (fun t => turn_arrived t = []) turns -> updateRequested s = false ->
  ClientHandler_loop turns s [] = (s, [], []).
Proof.
  intros Hturns Hu. induction Hturns as [|t turns Harr _ IH]; [done|].
  cbn [ClientHandler_loop]. destruct (turn_running t); [|done].
  rewrite Harr. cbn [app]. rewrite quiet_turn.
  unfold wants_update. rewrite Hu. cbn [andb]. by rewrite IH.
Qed.

(** X8. Without a request from the client a session sends at most one
    update: over any number of turns in which nothing arrives, either
    nothing is sent, or exactly one FramebufferUpdate, that of the store
    of one of the turns, after which no request is pending.  A session
    with no request pending does nothing at all. *)
Theorem at_most_one_update_without_request turns s :
  Forall (fun t => turn_arrived t = []) turns ->
  let run := ClientHandler_loop turns s [] in
  (updateRequested s = false -> events run = []) /\
  (sent (events run) = [] \/
   exists t, t ∈ turns /\
     sent (events run) =
       FramebufferUpdate_bytes (currentDirtyRects (turn_server t))
         (serverFramebuffer (turn_server t)) (width (turn_server t)) /\
     result run = mkSession (frameCounter (turn_server t)) false).
Proof.
  intros Hturns. cbv zeta. split.
  { intros Hu. by rewrite idle_session_stays_quiet. }
  induction Hturns as [|t turns Harr Hturns IH]; [by left|].
  cbn [ClientHandler_loop]. destruct (turn_running t); [|by left].
  rewrite Harr. cbn [app]. rewrite quiet_turn.
  destruct (wants_update (turn_server t) s).
  - rewrite idle_session_stays_quiet by done. io_proj. rewrite app_nil_r.
    destruct (SendFrameUpdate_run (currentDirtyRects (turn_server t))
                (serverFramebuffer (turn_server t)) (width (turn_server t))
                (height (turn_server t)) []) as (_ & Hs & _).
    right. exists t. split; [by left|]. by rewrite Hs.
  - destruct (ClientHandler_loop turns s []) as [[s2 inb2] ev2]. io_proj.
    rewrite !result_mk, !events_mk in IH. cbn [app].
    destruct IH as [IH|(t' & Hin & IH)]; [by left|].
    right. exists t'. split; [by right|done].
Qed.

Lemma at_most_one_update_without_request_witness :
  let run := ClientHandler_loop quiet_turns (mkSession 0 false) [] in
  (updateRequested (mkSession 0 false) = false -> events run = []) /\
  (sent (events run) = [] \/
   exists t, t ∈ quiet_turns /\
     sent (events run) =
       FramebufferUpdate_bytes (currentDirtyRects (turn_server t))
         (serverFramebuffer (turn_server t)) (width (turn_server t)) /\
     result run = mkSession (frameCounter (turn_server t)) false).
Proof.
  apply (at_most_one_update_without_request quiet_turns (mkSession 0 false)).
  repeat constructor.
Defined.

Lemma iteration_lastFrameSeen srv s inb s1 :
  result (ClientHandler_iteration srv s inb) = Some s1 ->
  (lastFrameSeen s1 = frameCounter srv /\ lastFrameSeen s < frameCounter srv) \/
  lastFrameSeen s1 = lastFrameSeen s.
Proof.
  rewrite iteration_run. io_proj. rewrite send_update_run. unfold wants_update.
  cbn [updateRequested lastFrameSeen].
  destruct (_ || _); cbn [andb]; [|io_proj; intros [= <-]; by right].
  case_bool_decide; io_proj; intros [= <-]; [left|right]; done.
Qed.

(** X9. [lastFrameSeen] never decreases in the loop, and it only ever
    takes the value of the store's frame counter at one of the turns. *)
Theorem lastFrameSeen_never_decreases turns s inb :
  let s' := result (ClientHandler_loop turns s inb) in
  lastFrameSeen s <= lastFrameSeen s' /\
  (lastFrameSeen s' = lastFrameSeen s \/
   exists t, t ∈ turns /\ lastFrameSeen s' = frameCounter (turn_server t)).
Proof.
  cbv zeta. revert s inb. induction turns as [|t turns IH]; intros s inb.
  - cbn. split; [lia|by left].
  - destruct (turn_running t) eqn:Hrun;
      [|rewrite ClientHandler_loop_stopped by done; io_proj; split; [lia|by left]].
    destruct (ClientHandler_loop_turn t turns s inb Hrun) as (s1 & Hs1 & ->).
    io_proj. specialize (IH s1 (unread (ClientHandler_iteration (turn_server t) s
                                           (inb ++ turn_arrived t)))).
    destruct IH as [IHle IHeq].
    apply iteration_lastFrameSeen in Hs1.
    split; [lia|].
    destruct IHeq as [IHeq|(t' & Hin & IHeq)].
    + destruct Hs1 as [[Hs1 _]|Hs1].
      * right. exists t. split; [by left|lia].
      * left. lia.
    + right. exists t'. split; [by right|done].
Qed.

(** ** Capture *)

Lemma convert_lookup_beyond src n dst j :
  (n * 4 <= j)%nat -> convert_BGRA_to_RGBA src n dst !! j = dst !! j.
Proof.
  unfold convert_BGRA_to_RGBA. induction n as [|n IH]; intros Hj; [done|].
  rewrite seq_S, foldl_app. cbn [foldl Nat.add].
  rewrite convert_pixel_other by lia. apply IH. lia.
Qed.

Lemma stored_pixel_length src i : length (stored_pixel src i) = 4%nat.
Proof. reflexivity. Qed.

Lemma convert_is_pixel_map src n dst :
  (n * 4 <= length dst)%nat ->
  convert_BGRA_to_RGBA src n dst =
    flat_map (stored_pixel src) (seq 0 n) ++ drop (n * 4) dst.
Proof.
  intros Hlen. apply list_eq. intros j.
  assert (Hfl : length (flat_map (stored_pixel src) (seq 0 n)) = (n * 4)%nat)
    by (apply length_flat_map_rows; intros; apply stored_pixel_length).
  destruct (decide (j < n * 4)%nat) as [Hj|Hj].
  - rewrite lookup_app_l by lia.
    replace j with (j / 4 * 4 + j mod 4)%nat at 1 2
      by (pose proof (Nat.div_mod_eq j 4); lia).
    assert (j / 4 < n)%nat by (apply Nat.Div0.div_lt_upper_bound; lia).
    assert (j mod 4 < 4)%nat by (apply Nat.mod_upper_bound; lia).
    rewrite convert_lookup by done.
    by rewrite (lookup_flat_map_rows _ 4) by (done || intros; apply stored_pixel_length).
  - rewrite convert_lookup_beyond by lia.
    rewrite lookup_app_r by lia. rewrite Hfl, lookup_drop. f_equal. lia.
Qed.

(** X10. A mapped frame rewrites the whole store, whatever its dirty
    rectangles are: pixel by pixel, the source's B, G, R, A becomes
    R, G, B, 255. *)
Theorem committed_frame_replaces_store srv f src :
  let n := Z.to_nat (width srv * height srv) in
  activeClients srv <> 0 -> frame_acquired f = true -> frame_pixels f = Some src ->
  length (serverFramebuffer srv) = Z.to_nat (width srv * height srv * 4) ->
  (Z.to_nat (width srv * height srv * 4) <= length src)%nat ->
  serverFramebuffer (CaptureLoop_iteration f srv) =
    flat_map (fun i => [src !!! (i * 4 + 2)%nat; src !!! (i * 4 + 1)%nat;
                        src !!! (i * 4 + 0)%nat; 255]) (seq 0 n).
Proof.
  intros n Hac Hacq Hpx Hlen _.
  destruct (CaptureLoop_iteration_cases f srv)
    as [[_ [?|?]]|(_ & _ & _ & _ & _ & _ & _ & _ & _ & ->)]; [done|congruence|].
  rewrite Hpx. fold n.
  assert (Hn : (n * 4)%nat = length (serverFramebuffer srv)) by (subst n; lia).
  rewrite convert_is_pixel_map by lia.
  rewrite Hn, drop_all, app_nil_r. reflexivity.
Qed.

Lemma committed_frame_replaces_store_witness :
  serverFramebuffer (CaptureLoop_iteration tiny_frame tiny_server) =
    [10; 20; 30; 255; 1; 2; 3; 255].
Proof.
  apply (committed_frame_replaces_store tiny_server tiny_frame [30; 20; 10; 9; 3; 2; 1; 9]).
  - simpl. lia.
  - reflexivity.
  - reflexivity.
  - reflexivity.
  - simpl. lia.
Defined.

(** X11. Dirty rectangles are replaced, not accumulated.  When two
    frames are committed between two turns of a session that waits for
    an update, the update it then gets lists the rectangles of the second
    frame only, and the session counts both frames as seen. *)
Theorem skipped_frame_rects_are_lost srv f1 f2 s :
  let srv2 := CaptureLoop_iteration f2 (CaptureLoop_iteration f1 srv) in
  activeClients srv <> 0 -> frame_acquired f1 = true -> frame_acquired f2 = true ->
  updateRequested s = true ->
  0 <= frameCounter srv < 18446744073709551614 ->
  lastFrameSeen s <= frameCounter srv ->
  frameCounter srv2 = frameCounter srv + 2 /\
  currentDirtyRects srv2 = committed_rects srv f2 /\
  sent (events (ClientHandler_iteration srv2 s [])) =
    FramebufferUpdate_bytes (committed_rects srv f2) (serverFramebuffer srv2) (width srv) /\
  result (ClientHandler_iteration srv2 s []) =
    Some (mkSession (frameCounter srv + 2) false).
Proof.
  intros srv2 Hac H1 H2 Hu HG Hs.
  destruct (CaptureLoop_iteration_cases f1 srv)
    as [[_ [?|?]]|(_ & _ & _ & Hg1 & Ha1 & _ & _ & Hw1 & Hh1 & _)]; [done|congruence|].
  destruct (CaptureLoop_iteration_cases f2 (CaptureLoop_iteration f1 srv))
    as [[_ [?|?]]|(_ & _ & Hr2 & Hg2 & _ & _ & _ & Hw2 & Hh2 & _)];
    [congruence|congruence|].
  fold srv2 in Hr2, Hg2, Hw2, Hh2.
  assert (HG2 : frameCounter srv2 = frameCounter srv + 2).
  { rewrite Hg2, Hg1. unfold u64.
    rewrite (Z.mod_small (frameCounter srv + 1)) by lia.
    rewrite Z.mod_small by lia. lia. }
  assert (HR2 : currentDirtyRects srv2 = committed_rects srv f2).
  { rewrite Hr2. unfold committed_rects, full_surface. by rewrite Hw1, Hh1. }
  split; [done|]. split; [done|].
  rewrite iteration_run. cbn [first_is_request]. rewrite orb_false_r, session_eta.
  change (read_message s []) with (Some s, @nil Z, @nil Event). io_proj.
  rewrite send_update_run. unfold wants_update.
  rewrite Hu, bool_decide_eq_true_2 by lia. cbn [andb]. io_proj. cbn [app].
  destruct (SendFrameUpdate_run (currentDirtyRects srv2) (serverFramebuffer srv2)
              (width srv2) (height srv2) []) as (_ & -> & _).
  rewrite HR2, HG2, Hw2, Hw1. done.
Qed.

Lemma skipped_frame_rects_are_lost_witness :
  let srv2 := CaptureLoop_iteration frame_delta
                (CaptureLoop_iteration frame_plain small_server) in
  frameCounter srv2 = 2 /\
  currentDirtyRects srv2 = [Rect.mk 1 1 2 1] /\
  sent (events (ClientHandler_iteration srv2 (mkSession 0 true) [])) =
    FramebufferUpdate_bytes [Rect.mk 1 1 2 1] (serverFramebuffer srv2) 4 /\
  result (ClientHandler_iteration srv2 (mkSession 0 true) []) =
    Some (mkSession 2 false).
Proof.
  apply (skipped_frame_rects_are_lost small_server frame_plain frame_delta
           (mkSession 0 true)).
  - simpl. lia.
  - reflexivity.
  - reflexivity.
  - reflexivity.
  - simpl. lia.
  - simpl. lia.
Defined.

(** ** The shape of the reachable states *)

Lemma Exists_insert_keep {A} (P : A -> Prop) (l : list A) i x y :
  Exists P l -> l !! i = Some x -> (P x -> P y) -> Exists P (<[i := y]> l).
Proof.
  rewrite !Exists_exists. intros (z & Hin & Hz) Hi Hxy.
  apply list_elem_of_lookup in Hin as [k Hk].
  destruct (decide (k = i)) as [->|Hne].
  - exists y. split; [|apply Hxy; congruence].
    apply list_elem_of_lookup. exists i. apply list_lookup_insert_eq.
    by eapply lookup_lt_Some.
  - exists z. split; [|done].
    apply list_elem_of_lookup. exists k. by rewrite list_lookup_insert_ne.
Qed.

Lemma Exists_insert_new {A} (P : A -> Prop) (l : list A) i x y :
  l !! i = Some x -> P y -> Exists P (<[i := y]> l).
Proof.
  intros Hi Hy. rewrite Exists_exists. exists y. split; [|done].
  apply list_elem_of_lookup. exists i. apply list_lookup_insert_eq.
  by eapply lookup_lt_Some.
Qed.

Lemma answered_more wk p inb s ev :
  answered wk -> answered (mkWorker p inb s (traffic wk ++ ev)).
Proof.
  unfold answered. cbn [traffic]. rewrite sent_app. intros H Hn.
  by apply app_eq_nil in Hn as [? _].
Qed.

Lemma upgrade_response_nonempty k : upgrade_response k <> [].
Proof. unfold upgrade_response. cbn. discriminate. Qed.

Lemma HandshakeWebSocket_true_answers sha inb :
  result (HandshakeWebSocket sha inb) = true ->
  sent (events (HandshakeWebSocket sha inb)) <> [].
Proof.
  unfold HandshakeWebSocket, bindIO. rewrite recv_run.
  case_decide; [by io_proj|].
  destruct (find_sub keyHeader _) as [pos|]; [|by io_proj].
  intros _. unfold send, retIO. io_proj.
  cbn [sent flat_map app]. rewrite app_nil_r.
  pose proof (upgrade_response_nonempty
    (sha match find_sub CRLF (drop pos (c_str (take 4095 inb))) with
         | Some e => take (pos + e - (pos + length keyHeader))
                       (drop (pos + length keyHeader) (c_str (take 4095 inb)))
         | None => drop (pos + length keyHeader) (c_str (take 4095 inb))
         end)) as Hne.
  intros Hnil. apply Hne. by destruct (upgrade_response _).
Qed.

Lemma InitializeDXGI_shape w h srv :
  0 <= frameCounter srv < 18446744073709551616 -> store_shape (InitializeDXGI w h srv).
Proof.
  intros HG. split; [|done]. cbn. by rewrite length_resize.
Qed.

Lemma CaptureLoop_shape f srv :
  store_shape srv -> store_shape (CaptureLoop_iteration f srv).
Proof.
  intros [Hlen HG].
  destruct (CaptureLoop_iteration_cases f srv)
    as [[-> _]|(_ & _ & _ & Hg & _ & _ & _ & Hw & Hh & Hfb)]; [done|].
  split.
  - rewrite Hw, Hh, Hfb. destruct (frame_pixels f); [|done].
    by rewrite convert_length.
  - rewrite Hg. unfold u64. apply Z.mod_pos_bound. lia.
Qed.

Section Shape.
Variable ComputeSHA1Base64 : list Z -> list Z.

Lemma step_system_shape sys sys' :
  step ComputeSHA1Base64 sys sys' -> system_shape sys -> system_shape sys'.
Proof.
  intros Hstep (Hsh & Hpr & Hex & Hfa).
  destruct Hstep; cbn [server capture workers] in *; unfold system_shape;
    cbn [server capture workers].
  - (* Start *)
    assert (Hst : forall P : VncServer -> Prop, P srv -> P (set_running true srv) -> P (Start srv))
      by (intros P; unfold Start; destruct (running srv); auto).
    split; [apply Hst; done|]. split; [|done].
    intros Hc. apply Hst; [auto|]. by apply Hpr.
  - (* Stop *)
    split; [done|]. split; [|done].
    intros Hc. destruct (Hpr Hc) as (? & ? & ? & ? & ?). by repeat split.
  - (* accept *)
    split; [done|]. split; [done|]. split.
    + intros Hc. apply Exists_app. left. auto.
    + apply Forall_app. split; [done|]. by constructor.
  - (* arrive *)
    split; [done|]. split; [done|]. split.
    + intros Hc. eapply Exists_insert_keep; [by apply Hex|eassumption|done].
    + apply Forall_insert; [done|]. cbn [pc]. intros Hp.
      by apply (Forall_lookup_1 _ _ _ _ Hfa H).
  - (* enter *)
    split; [done|]. split; [intros Hc; destruct (Hpr Hc) as (? & ? & ? & ? & ?); by repeat split|].
    split.
    + intros Hc. eapply Exists_insert_keep; [by apply Hex|eassumption|done].
    + apply Forall_insert; [done|]. done.
  - (* websocket ok *)
    split; [done|]. split; [done|]. split.
    + intros Hc. eapply Exists_insert_keep; [by apply Hex|eassumption|].
      apply answered_more.
    + apply Forall_insert; [done|]. intros _. unfold answered. cbn [traffic].
      rewrite sent_app. intros Hn. apply app_eq_nil in Hn as [_ Hn].
      by apply (HandshakeWebSocket_true_answers ComputeSHA1Base64 (pending wk)).
  - (* websocket fail *)
    split; [done|]. split; [intros Hc; destruct (Hpr Hc) as (? & ? & ? & ? & ?); by repeat split|].
    split.
    + intros Hc. eapply Exists_insert_keep; [by apply Hex|eassumption|].
      apply answered_more.
    + apply Forall_insert; [done|]. done.
  - (* start capture *)
    assert (Hans : answered wk) by (by apply (Forall_lookup_1 _ _ _ _ Hfa H)).
    split; [by destruct (captureRunning srv)|]. split.
    + intros Hc. destruct (captureRunning srv) eqn:Hcr; [|done].
      destruct (Hpr Hc) as (_ & _ & _ & _ & ?). congruence.
    + split.
      * intros _. by eapply Exists_insert_new.
      * apply Forall_insert; [done|]. done.
  - (* RFB ok *)
    split; [done|]. split; [done|]. split.
    + intros Hc. eapply Exists_insert_keep; [by apply Hex|eassumption|].
      apply answered_more.
    + apply Forall_insert; [done|]. done.
  - (* RFB fail *)
    split; [done|]. split; [intros Hc; destruct (Hpr Hc) as (? & ? & ? & ? & ?); by repeat split|].
    split.
    + intros Hc. eapply Exists_insert_keep; [by apply Hex|eassumption|].
      apply answered_more.
    + apply Forall_insert; [done|]. done.
  - (* loop *)
    split; [done|]. split; [done|]. split.
    + intros Hc. eapply Exists_insert_keep; [by apply Hex|eassumption|].
      apply answered_more.
    + apply Forall_insert; [done|]. done.
  - (* loop break *)
    split; [done|]. split; [intros Hc; destruct (Hpr Hc) as (? & ? & ? & ? & ?); by repeat split|].
    split.
    + intros Hc. eapply Exists_insert_keep; [by apply Hex|eassumption|].
      apply answered_more.
    + apply Forall_insert; [done|]. done.
  - (* loop stopped *)
    split; [done|]. split; [intros Hc; destruct (Hpr Hc) as (? & ? & ? & ? & ?); by repeat split|].
    split.
    + intros Hc. eapply Exists_insert_keep; [by apply Hex|eassumption|done].
    + apply Forall_insert; [done|]. done.
  - (* InitializeDXGI *)
    split; [apply InitializeDXGI_shape; apply Hsh|]. split; [done|]. split; [|done].
    intros _. by apply Hex.
  - (* capture *)
    split; [by apply CaptureLoop_shape|]. split; [done|]. split; [|done].
    intros _. by apply Hex.
  - (* capture exit *)
    split; [done|]. split; [done|]. split; [|done]. intros _. by apply Hex.
Qed.

Lemma reachable_system_shape sys :
  reachable ComputeSHA1Base64 sys -> system_shape sys.
Proof.
  induction 1 as [info srv Hnew|sys sys' _ IH Hstep];
    [|by eapply step_system_shape].
  destruct (VncServer_new_fields _ _ Hnew) as (_ & Hc & _ & Hw & Hh & Hfb & Hr & Hg).
  split; [|split; [|split]]; cbn [server capture workers].
  - split; [|lia]. by rewrite Hfb, Hw, Hh, length_resize.
  - intros _. by repeat split.
  - done.
  - constructor.
Qed.
End Shape.

Section Reach.
Variable ComputeSHA1Base64 : list Z -> list Z.

(** X12. In every state the server can reach, the store holds
    [width * height * 4] bytes. *)
Theorem framebuffer_always_sized sys :
  reachable ComputeSHA1Base64 sys ->
  length (serverFramebuffer (server sys)) =
    Z.to_nat (width (server sys) * height (server sys) * 4).
Proof. intros Hr. by destruct (reachable_system_shape _ _ Hr) as ([? _] & _). Qed.

(** X13. In every reachable state with a client counted, an acquired
    frame advances the frame counter by one (wrapping at 2^64) and leaves
    a non-empty list of dirty rectangles. *)
Theorem generation_counts_commits sys f :
  let srv := server sys in
  reachable ComputeSHA1Base64 sys ->
  activeClients srv <> 0 -> frame_acquired f = true ->
  0 <= frameCounter srv < 18446744073709551616 /\
  frameCounter (CaptureLoop_iteration f srv) =
    (if decide (frameCounter srv = 18446744073709551615) then 0
     else frameCounter srv + 1) /\
  currentDirtyRects (CaptureLoop_iteration f srv) <> [].
Proof.
  intros srv Hr Hac Hacq.
  destruct (reachable_system_shape _ _ Hr) as ([_ HG] & _). fold srv in HG.
  destruct (CaptureLoop_iteration_cases f srv)
    as [[_ [?|?]]|(_ & _ & Hrects & Hg & _)]; [done|congruence|].
  split; [done|]. split.
  - rewrite Hg. unfold u64. case_decide as Hmax.
    + by rewrite Hmax.
    + rewrite Z.mod_small; lia.
  - rewrite Hrects. apply committed_rects_nonempty.
Qed.

(** X14. The capture thread is started by the first session that
    completes the WebSocket handshake: as long as no session has been
    sent a byte, there is no capture thread and the store is as the
    constructor left it. *)
Theorem no_capture_before_first_upgrade sys :
  reachable ComputeSHA1Base64 sys ->
  Forall (fun wk => sent (traffic wk) = []) (workers sys) ->
  capture sys = CapNone /\
  frameCounter (server sys) = 0 /\ currentDirtyRects (server sys) = [] /\
  width (server sys) = 1920 /\ height (server sys) = 1080 /\
  captureRunning (server sys) = false.
Proof.
  intros Hr Hquiet.
  destruct (reachable_system_shape _ _ Hr) as (_ & Hpr & Hex & _).
  assert (Hc : capture sys = CapNone).
  { destruct (capture sys) eqn:Hc; [done|exfalso..];
      (destruct (proj1 (Exists_exists _ _) (Hex ltac:(discriminate)))
         as (wk & Hin & Hans));
      rewrite Forall_forall in Hquiet; by apply Hans, Hquiet. }
  split; [done|]. by apply Hpr.
Qed.

(** X15. While no session is between [activeClients++] and
    [activeClients--], a turn of the capture loop changes nothing. *)
Theorem capture_idles_without_clients sys f :
  reachable ComputeSHA1Base64 sys ->
  count_workers counted (workers sys) = 0 ->
  CaptureLoop_iteration f (server sys) = server sys.
Proof.
  intros Hr H0. destruct (reachable_system_ok _ _ Hr) as (_ & _ & Hac).
  rewrite H0 in Hac. unfold CaptureLoop_iteration.
  by rewrite decide_True by (rewrite Hac; reflexivity).
Qed.
End Reach.

Lemma framebuffer_always_sized_witness :
  length (serverFramebuffer (server sys_accepted)) =
    Z.to_nat (width (server sys_accepted) * height (server sys_accepted) * 4).
Proof.
  exact (framebuffer_always_sized no_digest sys_accepted (reachable_accepted no_digest)).
Defined.

Lemma generation_counts_commits_witness :
  frameCounter (CaptureLoop_iteration frame_plain (server sys_entered)) = 1.
Proof.
  assert (Ha : activeClients (server sys_entered) = 1) by reflexivity.
  assert (Hn : activeClients (server sys_entered) <> 0) by (rewrite Ha; lia).
  exact (proj1 (proj2 (generation_counts_commits no_digest sys_entered frame_plain
                         (reachable_entered no_digest) Hn eq_refl))).
Defined.

Lemma no_capture_before_first_upgrade_witness :
  capture sys_accepted = CapNone /\
  frameCounter (server sys_accepted) = 0 /\
  currentDirtyRects (server sys_accepted) = [] /\
  width (server sys_accepted) = 1920 /\ height (server sys_accepted) = 1080 /\
  captureRunning (server sys_accepted) = false.
Proof.
  apply (no_capture_before_first_upgrade no_digest sys_accepted).
  - apply reachable_accepted.
  - repeat constructor.
Defined.

Lemma capture_idles_without_clients_witness :
  CaptureLoop_iteration frame_plain (server sys_accepted) = server sys_accepted.
Proof.
  apply (capture_idles_without_clients no_digest sys_accepted frame_plain).
  - apply reachable_accepted.
  - reflexivity.
Defined.

(** X16. For a pointer position on the surface, the coordinates
    [SendInput] injects lie between 0 and the exact normalised
    coordinate [v * 65535 / extent], which is at most 65535; they fall
    short of it by at most [v]. *)
Theorem SendInput_mouse_in_range srv x y button key inb :
  let W := width srv in
  let H := height srv in
  0 < W -> 0 < H -> 0 <= x < W -> 0 <= y < H ->
  exists dx dy dwFlags,
    injected (events (SendInput srv 0 x y button key inb)) = [MouseInput dx dy dwFlags] /\
    0 <= dx <= normalized_coordinate x W /\ normalized_coordinate x W <= 65535 /\
    normalized_coordinate x W - dx <= x /\
    0 <= dy <= normalized_coordinate y H /\ normalized_coordinate y H <= 65535 /\
    normalized_coordinate y H - dy <= y.
Proof.
  intros W H HW HH Hx Hy.
  destruct (SendInput_mouse_run srv x y button key inb HW HH Hx Hy) as [dwFlags ->].
  eexists _, _, _. split; [reflexivity|]. fold W H. unfold normalized_coordinate.
  rewrite !Z.quot_div_nonneg by lia.
  assert (Hscale : forall v e, 0 < e -> 0 <= v < e ->
            0 <= v * (65535 / e) <= v * 65535 / e /\ v * 65535 / e <= 65535 /\
            v * 65535 / e - v * (65535 / e) <= v).
  { intros v e He Hv.
    pose proof (Z.div_mod 65535 e ltac:(lia)) as Hq.
    pose proof (Z.mod_pos_bound 65535 e He) as Hr.
    set (q := 65535 / e) in *. set (r := 65535 mod e) in *.
    assert (Hq0 : 0 <= q) by (subst q; apply Z.div_pos; lia).
    assert (Hvq : v * 65535 = v * q * e + v * r) by nia.
    rewrite Hvq. rewrite Z.div_add_l by lia.
    assert (0 <= v * r / e) by (apply Z.div_pos; nia).
    assert (v * r / e <= v).
    { apply Z.div_le_upper_bound; [lia|]. nia. }
    assert (v * q + v * r / e <= 65535).
    { assert (v * q * e + v * r < 65535 * e + e) by nia.
      assert (v * q + v * r / e < 65535 + 1); [|lia].
      rewrite <- (Z.div_add_l (v * q) e (v * r)) by lia.
      apply Z.div_lt_upper_bound; [lia|]. nia. }
    nia. }
  destruct (Hscale x W HW Hx) as (? & ? & ?).
  destruct (Hscale y H HH Hy) as (? & ? & ?).
  repeat split; lia.
Qed.

Lemma SendInput_mouse_in_range_witness :
  exists dx dy dwFlags,
    injected (events (SendInput hd_server 0 1919 1079 0 0 [])) =
      [MouseInput dx dy dwFlags] /\
    0 <= dx <= normalized_coordinate 1919 1920 /\
    normalized_coordinate 1919 1920 <= 65535 /\
    normalized_coordinate 1919 1920 - dx <= 1919 /\
    0 <= dy <= normalized_coordinate 1079 1080 /\
    normalized_coordinate 1079 1080 <= 65535 /\
    normalized_coordinate 1079 1080 - dy <= 1079.
Proof.
  apply (SendInput_mouse_in_range hd_server 1919 1079 0 0 []); simpl; lia.
Defined.

(** ** Construction and listening *)

(** X17. The constructor succeeds exactly when its first argument is an
    object whose [port], if present, is a number and whose [password],
    if present, is a string. *)
Theorem VncServer_new_succeeds_iff info :
  is_Some (VncServer_new info) <->
  exists o rest, info = ArgObject o :: rest /\ port_option_ok o /\ password_option_ok o.
Proof.
  unfold VncServer_new, port_option_ok, password_option_ok. split.
  - destruct info as [|[o|v] rest]; [by intros [? ?]| |by intros [? ?]].
    intros [srv Hsrv]. exists o, rest. split; [done|].
    destruct (o !! "port"%string) as [[| | |]|];
      destruct (o !! "password"%string) as [[| | |]|]; done.
  - intros (o & rest & -> & Hp & Hw).
    destruct (o !! "port"%string) as [[| | |]|]; try done;
      destruct (o !! "password"%string) as [[| | |]|]; try done; by eexists.
Qed.

Lemma u16_s32 n : u16 (s32 n) = n mod 65536.
Proof. unfold u16, s32. Z.div_mod_to_equations. lia. Qed.


